(** * Manus AI development system: consensus orchestration, GitHub automation
      and the system orchestrator

    A shallow embedding of [multi_ai_integration.py], [github_automation.py],
    [kael_consciousness_core.py] (the part the orchestrator drives) and
    [manus_ai_system.py], followed by the properties of the specification
    that concern them.

    Conventions of the embedding.
    - A Python object is a record and a method is a function from the old
      object to the returned value and the new object.
    - A raised exception is the [Raise] branch of [result]; [try]/[except
      Exception] is a [match] on it.
    - A Python [float] is an exact rational of [Q] in the records: orders
      and thresholds are the same in both, sums and quotients are not.
      Where rounding decides, module [binary64] embeds the expression in
      IEEE binary64 arithmetic, and the theorems say which of the two they
      speak of.
    - A Python [str] is a string of bytes; [len] of a string agrees with
      [String.length] on ASCII text.
    - A dict with a fixed set of keys is a record; a key that one code path
      leaves out is an [option] field.
    - [datetime.utcnow().isoformat()] stamps and [print] output take no part
      in any decision of the code and are left out of the records.
    - [GitWorkflow] and the Discord front end only call the methods modelled
      here and are not embedded. *)

From Stdlib Require Import ZArith QArith String Ascii List Sorted Lia.
From Stdlib Require Import DecimalString DecimalNat Lqa Floats Qabs.

Set Warnings "-inexact-float".
From stdpp Require Import base decidable countable gmap sets list.

Local Open Scope string_scope.

(** ** Python runtime pieces shared by the modules *)

Module Py.

(** The two exceptions the modelled code can raise. *)
Inductive exn : Type :=
| ValueError (msg : string)
| ZeroDivisionError (msg : string).

(** [str(e)] *)
Definition str_exn (e : exn) : string :=
  match e with
  | ValueError m => m
  | ZeroDivisionError m => m
  end.

Inductive result (A : Type) : Type :=
| Ok (a : A)
| Raise (e : exn).
Arguments Ok {A} a.
Arguments Raise {A} e.

Definition bind {A B : Type} (m : result A) (k : A -> result B) : result B :=
  match m with
  | Ok a => k a
  | Raise e => Raise e
  end.

Definition is_ok {A : Type} (m : result A) : bool :=
  match m with Ok _ => true | Raise _ => false end.

(** [x > y] on numbers *)
Definition gt (x y : Q) : bool := negb (Qle_bool x y).

(** [max(iterable, key=key)]: the first item whose key no later item
    exceeds; an item replaces the running maximum only when its key is
    strictly greater.  Raises [ValueError] on an empty iterable; the text
    of the message is the one of CPython 3.11 and differs between
    interpreter versions. *)
Fixpoint max_from {A : Type} (key : A -> Q) (best : A) (l : list A) : A :=
  match l with
  | [] => best
  | x :: l' => if gt (key x) (key best) then max_from key x l'
               else max_from key best l'
  end.

Definition max {A : Type} (key : A -> Q) (l : list A) : result A :=
  match l with
  | [] => Raise (ValueError "max() arg is an empty sequence")
  | x :: l' => Ok (max_from key x l')
  end.

(** [sum(iterable)]: starts from [0] and adds from the left. *)
Definition sum (l : list Q) : Q := fold_left Qplus l 0%Q.

(** [x / n] for a number [x] and an [int] [n]. *)
Definition truediv (x : Q) (n : nat) : result Q :=
  match n with
  | O => Raise (ZeroDivisionError "division by zero")
  | S _ => Ok (x / inject_Z (Z.of_nat n))%Q
  end.

(** [l[start:]] with Python's treatment of a negative or too large
    [start]: a negative index counts from the end and is clamped at the
    front, a large one is clamped at the end. *)
Definition slice_from {A : Type} (start : Z) (l : list A) : list A :=
  let n := Z.of_nat (length l) in
  let s := if (start <? 0)%Z then Z.max 0 (start + n) else Z.min start n in
  drop (Z.to_nat s) l.

(** The newline character of the string literals. *)
Definition nl : string := String (ascii_of_nat 10) EmptyString.

End Py.

Notation "'try!' x ':=' m 'in' k" := (Py.bind m (fun x => k))
  (at level 10, x name, m at level 100, k at level 200).

(** ** multi_ai_integration.py *)

Module multi_ai_integration.
Import Py.

(** [class AIProvider(Enum)], in declaration order. *)
Inductive AIProvider : Type :=
| CLAUDE | DEEPSEEK | PERPLEXITY | GEMINI | GROK | MANUS.

#[global] Instance AIProvider_eq_dec : EqDecision AIProvider.
Proof. solve_decision. Defined.

Definition AIProvider_index (p : AIProvider) : nat :=
  match p with
  | CLAUDE => 0 | DEEPSEEK => 1 | PERPLEXITY => 2
  | GEMINI => 3 | GROK => 4 | MANUS => 5
  end.

Definition AIProvider_of_index (n : nat) : AIProvider :=
  match n with
  | 0 => CLAUDE | 1 => DEEPSEEK | 2 => PERPLEXITY
  | 3 => GEMINI | 4 => GROK | _ => MANUS
  end.

#[global] Instance AIProvider_countable : Countable AIProvider.
Proof.
  apply (inj_countable' AIProvider_index AIProvider_of_index).
  intros []; reflexivity.
Defined.

(** [provider.value] *)
Definition value (p : AIProvider) : string :=
  match p with
  | CLAUDE => "claude" | DEEPSEEK => "deepseek" | PERPLEXITY => "perplexity"
  | GEMINI => "gemini" | GROK => "grok" | MANUS => "manus"
  end.

(** [@dataclass AIResponse] *)
Record AIResponse : Type := mkAIResponse {
  provider : AIProvider;
  content : string;
  confidence : Q;
  tokens_used : Z;
  latency_ms : Q;
  reasoning : option string
}.

(** The keyword call [AIResponse(provider=, content=, timestamp=,
    confidence=, reasoning=)] with the dataclass defaults for the rest. *)
Definition response (p : AIProvider) (c : string) (conf : Q) (why : string)
  : AIResponse :=
  mkAIResponse p c conf 0%Z 0%Q (Some why).

(** [class AIIntegration]: the interface of one provider client.  The
    three request methods are the ones the subclasses override; they are
    total here, as those of the five shipped subclasses are (the methods of
    the base class itself raise [NotImplementedError], and no object of the
    base class is ever registered). *)
Record AIIntegration : Type := mkAIIntegration {
  integration_provider : AIProvider;
  api_key : option string;
  authenticated : bool;
  rate_limit : Z;
  requests_made : Z;
  model : string;
  generate_code : string -> AIResponse;
  analyze_code : string -> AIResponse;
  answer_question : string -> AIResponse
}.

(** [AIIntegration.__init__] followed by the subclass's own fields. *)
Definition integration (p : AIProvider) (mdl : string)
    (gen ana ans : string -> AIResponse) : AIIntegration :=
  mkAIIntegration p None false 100%Z 0%Z mdl gen ana ans.

Definition ClaudeIntegration : AIIntegration :=
  integration CLAUDE "claude-3-opus"
    (fun prompt => response CLAUDE
       ("# Claude-generated code for: " ++ prompt ++ nl ++ nl
          ++ "def solution():" ++ nl ++ "    pass")
       0.92 "Claude excels at code generation with strong reasoning")
    (fun code => response CLAUDE
       ("Code quality: 8.5/10" ++ nl ++ "- Good structure" ++ nl
          ++ "- Could improve error handling")
       0.88 "Claude provides detailed code analysis")
    (fun question => response CLAUDE
       ("Claude's answer to '" ++ question
          ++ "': [Detailed analysis would go here]")
       0.90 "Claude provides comprehensive, nuanced answers").

Definition DeepSeekIntegration : AIIntegration :=
  integration DEEPSEEK "deepseek-coder"
    (fun prompt => response DEEPSEEK
       ("# DeepSeek-generated code for: " ++ prompt ++ nl ++ nl
          ++ "def optimized_solution():" ++ nl ++ "    pass")
       0.94 "DeepSeek specializes in technical and code-related tasks")
    (fun code => response DEEPSEEK
       ("Performance analysis: Optimized for speed" ++ nl
          ++ "- Time complexity: O(n)" ++ nl ++ "- Space complexity: O(1)")
       0.91 "DeepSeek excels at performance and optimization analysis")
    (fun question => response DEEPSEEK
       ("DeepSeek's answer to '" ++ question
          ++ "': [Technical deep-dive would go here]")
       0.89 "DeepSeek provides technical depth").

Definition PerplexityIntegration : AIIntegration :=
  integration PERPLEXITY "perplexity-pro"
    (fun prompt => response PERPLEXITY
       ("# Perplexity-generated code for: " ++ prompt ++ nl ++ nl
          ++ "def solution():" ++ nl ++ "    pass")
       0.85 "Perplexity provides research-backed solutions")
    (fun code => response PERPLEXITY
       "Code review with research context: [Analysis with sources would go here]"
       0.87 "Perplexity excels at research and context")
    (fun question => response PERPLEXITY
       ("Perplexity's answer to '" ++ question
          ++ "': [Research-backed answer with sources]")
       0.91 "Perplexity provides well-researched answers").

Definition GeminiIntegration : AIIntegration :=
  integration GEMINI "gemini-pro"
    (fun prompt => response GEMINI
       ("# Gemini-generated code for: " ++ prompt ++ nl ++ nl
          ++ "def solution():" ++ nl ++ "    pass")
       0.88 "Gemini provides versatile code generation")
    (fun code => response GEMINI
       "Code analysis: [Comprehensive analysis would go here]"
       0.86 "Gemini provides balanced analysis")
    (fun question => response GEMINI
       ("Gemini's answer to '" ++ question
          ++ "': [Balanced answer would go here]")
       0.88 "Gemini provides balanced, thoughtful answers").

Definition GrokIntegration : AIIntegration :=
  integration GROK "grok-1"
    (fun prompt => response GROK
       ("# Grok-generated code for: " ++ prompt ++ nl ++ nl
          ++ "def solution():" ++ nl ++ "    pass")
       0.90 "Grok provides creative and unconventional solutions")
    (fun code => response GROK
       "Code analysis with creative insights: [Analysis would go here]"
       0.87 "Grok provides creative analysis perspectives")
    (fun question => response GROK
       ("Grok's answer to '" ++ question
          ++ "': [Creative, witty answer would go here]")
       0.89 "Grok provides creative, sometimes irreverent answers").

(** [class MultiAIOrchestrator].  [ai_systems] is a dict read in insertion
    order, hence an association list; [enabled_systems] is a set. *)
Record MultiAIOrchestrator : Type := mkMultiAIOrchestrator {
  ai_systems : list (AIProvider * AIIntegration);
  enabled_systems : gset AIProvider;
  consensus_threshold : Q
}.

Definition __init__ : MultiAIOrchestrator :=
  let systems :=
    [ (CLAUDE, ClaudeIntegration);
      (DEEPSEEK, DeepSeekIntegration);
      (PERPLEXITY, PerplexityIntegration);
      (GEMINI, GeminiIntegration);
      (GROK, GrokIntegration) ] in
  {| ai_systems := systems;
     enabled_systems := list_to_set (map fst systems);
     consensus_threshold := 0.75 |}.

(** [provider in self.ai_systems] *)
Definition registered (self : MultiAIOrchestrator) (p : AIProvider) : bool :=
  bool_decide (p ∈ map fst (ai_systems self)).

(** The loop that collects the tasks: the integrations of the enabled
    providers, in the order of [ai_systems.items()]. *)
Definition enabled_integrations (self : MultiAIOrchestrator)
  : list AIIntegration :=
  map snd
    (filter (fun kv => fst kv ∈ enabled_systems self) (ai_systems self)).

(** Entries of [results["responses"]]; [e_reasoning] is [None] where the
    comprehension writes no "reasoning" key. *)
Record ResponseEntry : Type := mkResponseEntry {
  e_provider : string;
  e_content : string;
  e_confidence : Q;
  e_reasoning : option (option string)
}.

Record BestResponse : Type := mkBestResponse {
  b_provider : string;
  b_content : string;
  b_confidence : Q
}.

Record Consensus : Type := mkConsensus {
  average_confidence : Q;
  agreement_level : string
}.

(** The first key of the result dict, which names the request. *)
Inductive Request : Type :=
| Prompt (prompt : string)
| CodeLength (code_length : nat)
| Question (question : string).

(** The result dict.  [best_response] is [None] for the two operations
    whose dict has no such key. *)
Record ConsensusResult : Type := mkConsensusResult {
  request : Request;
  responses : list ResponseEntry;
  consensus : Consensus;
  best_response : option BestResponse
}.

Definition entry_with_reasoning (r : AIResponse) : ResponseEntry :=
  mkResponseEntry (value (provider r)) (content r) (confidence r)
                  (Some (reasoning r)).

Definition entry_without_reasoning (r : AIResponse) : ResponseEntry :=
  mkResponseEntry (value (provider r)) (content r) (confidence r) None.

(** The conditional expression of [generate_code_consensus]. *)
Definition agreement_level_generate (avg_confidence : Q) : string :=
  if gt avg_confidence 0.85 then "high"
  else if gt avg_confidence 0.75 then "medium"
  else "low".

(** The conditional expression of [analyze_code_consensus] and of
    [answer_question_consensus]. *)
Definition agreement_level_two_way (avg_confidence : Q) : string :=
  if gt avg_confidence 0.85 then "high" else "medium".

Definition generate_code_consensus (self : MultiAIOrchestrator)
    (prompt : string) : result ConsensusResult :=
  let responses :=
    map (fun ai_system => generate_code ai_system prompt)
        (enabled_integrations self) in
  let entries := map entry_with_reasoning responses in
  try! best := max confidence responses in
  let best_entry :=
    mkBestResponse (value (provider best)) (content best) (confidence best) in
  try! avg_confidence :=
    truediv (sum (map confidence responses)) (length responses) in
  Ok {| request := Prompt prompt;
        responses := entries;
        consensus := mkConsensus avg_confidence
                       (agreement_level_generate avg_confidence);
        best_response := Some best_entry |}.

Definition analyze_code_consensus (self : MultiAIOrchestrator)
    (code : string) : result ConsensusResult :=
  let responses :=
    map (fun ai_system => analyze_code ai_system code)
        (enabled_integrations self) in
  let entries := map entry_without_reasoning responses in
  try! avg_confidence :=
    truediv (sum (map confidence responses)) (length responses) in
  Ok {| request := CodeLength (String.length code);
        responses := entries;
        consensus := mkConsensus avg_confidence
                       (agreement_level_two_way avg_confidence);
        best_response := None |}.

Definition answer_question_consensus (self : MultiAIOrchestrator)
    (question : string) : result ConsensusResult :=
  let responses :=
    map (fun ai_system => answer_question ai_system question)
        (enabled_integrations self) in
  let entries := map entry_with_reasoning responses in
  try! avg_confidence :=
    truediv (sum (map confidence responses)) (length responses) in
  Ok {| request := Question question;
        responses := entries;
        consensus := mkConsensus avg_confidence
                       (agreement_level_two_way avg_confidence);
        best_response := None |}.

Definition enable_ai (self : MultiAIOrchestrator) (p : AIProvider)
  : bool * MultiAIOrchestrator :=
  if registered self p then
    (true, {| ai_systems := ai_systems self;
              enabled_systems := {[ p ]} ∪ enabled_systems self;
              consensus_threshold := consensus_threshold self |})
  else (false, self).

Definition disable_ai (self : MultiAIOrchestrator) (p : AIProvider)
  : bool * MultiAIOrchestrator :=
  if bool_decide (p ∈ enabled_systems self) then
    (true, {| ai_systems := ai_systems self;
              enabled_systems := enabled_systems self ∖ {[ p ]};
              consensus_threshold := consensus_threshold self |})
  else (false, self).

Record Status : Type := mkStatus {
  status_enabled_systems : list string;
  total_systems : nat;
  active_systems : nat
}.

(** [get_status].  The list under "enabled_systems" follows the iteration
    order of a Python set, which is not fixed; [elements] stands for one
    such order, and no property below depends on it. *)
Definition get_status (self : MultiAIOrchestrator) : Status :=
  {| status_enabled_systems := map value (elements (enabled_systems self));
     total_systems := length (ai_systems self);
     active_systems := size (enabled_systems self) |}.

(** The calls a client can make on an orchestrator, and their effect on
    it.  The consensus operations and [get_status] read the object only,
    whether they return or raise. *)
Inductive call : Type :=
| EnableAI (p : AIProvider)
| DisableAI (p : AIProvider)
| GenerateCodeConsensus (prompt : string)
| AnalyzeCodeConsensus (code : string)
| AnswerQuestionConsensus (question : string)
| GetStatus.

Definition step (self : MultiAIOrchestrator) (c : call) : MultiAIOrchestrator :=
  match c with
  | EnableAI p => snd (enable_ai self p)
  | DisableAI p => snd (disable_ai self p)
  | GenerateCodeConsensus _ | AnalyzeCodeConsensus _
  | AnswerQuestionConsensus _ | GetStatus => self
  end.

Definition run (calls : list call) (self : MultiAIOrchestrator)
  : MultiAIOrchestrator :=
  fold_left step calls self.

End multi_ai_integration.

(** ** github_automation.py *)

Module github_automation.
Import Py.

(** [str(n)] for a non-negative [int]. *)
Definition decimal (n : nat) : string :=
  NilEmpty.string_of_uint (Nat.to_uint n).

(** The format [{n:05d}]: decimal digits, padded with zeros to five. *)
Definition format_05d (n : nat) : string :=
  let digits := decimal n in
  String.concat "" (repeat "0" (5 - String.length digits)) ++ digits.

(** The operation dicts the methods build, one constructor for each
    value of the "type" key. *)
Inductive Operation : Type :=
| create_branch_op (repository branch_name base_branch : string)
| commit_op (repository message : string) (files : list string)
            (branch hash : string)
| create_pr_op (repository : string) (pr_number : nat)
               (title description source_branch target_branch url : string)
| merge_pr_op (repository : string) (pr_number : Z) (merge_method : string)
| push_op (repository branch message : string)
| create_release_op (repository version changelog url : string)
| deploy_op (repository version environment url : string).

(** The "status" key of an operation dict. *)
Definition status (op : Operation) : string :=
  match op with
  | create_pr_op _ _ _ _ _ _ _ => "open"
  | _ => "success"
  end.

(** What a gated method returns: the dict
    [{"success": False, "error": ...}] or the operation dict. *)
Inductive Reply : Type :=
| Failed (error : string)
| Done (op : Operation).

(** [reply.get("pr_number")] and [reply.get("url")] *)
Definition get_pr_number (r : Reply) : option Z :=
  match r with
  | Done (create_pr_op _ n _ _ _ _ _) => Some (Z.of_nat n)
  | Done (merge_pr_op _ n _) => Some n
  | _ => None
  end.

Definition get_url (r : Reply) : option string :=
  match r with
  | Done (create_pr_op _ _ _ _ _ _ url) => Some url
  | Done (create_release_op _ _ _ url) => Some url
  | Done (deploy_op _ _ _ url) => Some url
  | _ => None
  end.

(** [class GitHubAutomation] *)
Record GitHubAutomation : Type := mkGitHubAutomation {
  github_token : option string;
  github_username : string;
  authenticated : bool;
  commits_made : nat;
  prs_created : nat;
  branches_created : nat;
  commit_history : list Operation;
  pr_history : list Operation;
  branch_history : list Operation;
  auto_merge_enabled : bool;
  auto_deploy_enabled : bool;
  branch_protection_enabled : bool;
  require_code_review : bool;
  min_reviews_required : nat
}.

Definition __init__ (token : option string) : GitHubAutomation :=
  {| github_token := token;
     github_username := "manus-ai";
     authenticated := false;
     commits_made := 0; prs_created := 0; branches_created := 0;
     commit_history := []; pr_history := []; branch_history := [];
     auto_merge_enabled := false;
     auto_deploy_enabled := false;
     branch_protection_enabled := true;
     require_code_review := true;
     min_reviews_required := 1 |}.

(** Assignments to groups of attributes. *)
Definition set_credentials (self : GitHubAutomation) (token : string)
  : GitHubAutomation :=
  mkGitHubAutomation (Some token) (github_username self) true
    (commits_made self) (prs_created self) (branches_created self)
    (commit_history self) (pr_history self) (branch_history self)
    (auto_merge_enabled self) (auto_deploy_enabled self)
    (branch_protection_enabled self) (require_code_review self)
    (min_reviews_required self).

Definition set_branches (self : GitHubAutomation)
    (history : list Operation) (count : nat) : GitHubAutomation :=
  mkGitHubAutomation (github_token self) (github_username self)
    (authenticated self)
    (commits_made self) (prs_created self) count
    (commit_history self) (pr_history self) history
    (auto_merge_enabled self) (auto_deploy_enabled self)
    (branch_protection_enabled self) (require_code_review self)
    (min_reviews_required self).

Definition set_commits (self : GitHubAutomation)
    (history : list Operation) (count : nat) : GitHubAutomation :=
  mkGitHubAutomation (github_token self) (github_username self)
    (authenticated self)
    count (prs_created self) (branches_created self)
    history (pr_history self) (branch_history self)
    (auto_merge_enabled self) (auto_deploy_enabled self)
    (branch_protection_enabled self) (require_code_review self)
    (min_reviews_required self).

Definition set_prs (self : GitHubAutomation)
    (history : list Operation) (count : nat) : GitHubAutomation :=
  mkGitHubAutomation (github_token self) (github_username self)
    (authenticated self)
    (commits_made self) count (branches_created self)
    (commit_history self) history (branch_history self)
    (auto_merge_enabled self) (auto_deploy_enabled self)
    (branch_protection_enabled self) (require_code_review self)
    (min_reviews_required self).

Definition not_authenticated : Reply := Failed "Not authenticated".

(** [if not token: return False] *)
Definition authenticate (self : GitHubAutomation) (token : string)
  : bool * GitHubAutomation :=
  match token with
  | EmptyString => (false, self)
  | _ => (true, set_credentials self token)
  end.

Definition create_branch (self : GitHubAutomation)
    (repo branch_name base_branch : string) : Reply * GitHubAutomation :=
  if negb (authenticated self) then (not_authenticated, self)
  else
    let operation := create_branch_op repo branch_name base_branch in
    (Done operation,
     set_branches self (branch_history self ++ [operation])
                  (branches_created self + 1)).

Definition commit (self : GitHubAutomation)
    (repo message : string) (files : list string) (branch : string)
  : Reply * GitHubAutomation :=
  if negb (authenticated self) then (not_authenticated, self)
  else
    let hash := "abc" ++ format_05d (length (commit_history self)) in
    let operation := commit_op repo message files branch hash in
    (Done operation,
     set_commits self (commit_history self ++ [operation])
                 (commits_made self + 1)).

Definition create_pull_request (self : GitHubAutomation)
    (repo title description source_branch target_branch : string)
  : Reply * GitHubAutomation :=
  if negb (authenticated self) then (not_authenticated, self)
  else
    let pr_number := 100 + length (pr_history self) in
    let operation :=
      create_pr_op repo pr_number title description source_branch
        target_branch
        ("https://github.com/Deathcharge/" ++ repo ++ "/pull/"
           ++ decimal pr_number) in
    (Done operation,
     set_prs self (pr_history self ++ [operation]) (prs_created self + 1)).

Definition merge_pull_request (self : GitHubAutomation)
    (repo : string) (pr_number : Z) (merge_method : string)
  : Reply * GitHubAutomation :=
  if negb (authenticated self) then (not_authenticated, self)
  else (Done (merge_pr_op repo pr_number merge_method), self).

Definition push_to_repository (self : GitHubAutomation)
    (repo branch commit_message : string) : Reply * GitHubAutomation :=
  if negb (authenticated self) then (not_authenticated, self)
  else (Done (push_op repo branch commit_message), self).

Definition create_release (self : GitHubAutomation)
    (repo version changelog : string) : Reply * GitHubAutomation :=
  if negb (authenticated self) then (not_authenticated, self)
  else
    (Done (create_release_op repo version changelog
             ("https://github.com/Deathcharge/" ++ repo
                ++ "/releases/tag/" ++ version)),
     self).

Definition deploy_to_production (self : GitHubAutomation)
    (repo version environment : string) : Reply * GitHubAutomation :=
  if negb (authenticated self) then (not_authenticated, self)
  else
    (Done (deploy_op repo version environment
             ("https://" ++ repo ++ ".helixcollective.ai")),
     self).

(** [history[-n:] if history else []] *)
Definition recent {A : Type} (n : Z) (history : list A) : list A :=
  match history with
  | [] => []
  | _ => slice_from (- n) history
  end.

Record Status : Type := mkStatus {
  status_authenticated : bool;
  username : string;
  status_commits_made : nat;
  status_prs_created : nat;
  status_branches_created : nat;
  status_auto_merge_enabled : bool;
  status_auto_deploy_enabled : bool;
  recent_commits : list Operation;
  recent_prs : list Operation
}.

Definition get_status (self : GitHubAutomation) : Status :=
  {| status_authenticated := authenticated self;
     username := github_username self;
     status_commits_made := commits_made self;
     status_prs_created := prs_created self;
     status_branches_created := branches_created self;
     status_auto_merge_enabled := auto_merge_enabled self;
     status_auto_deploy_enabled := auto_deploy_enabled self;
     recent_commits := recent 5 (commit_history self);
     recent_prs := recent 5 (pr_history self) |}.

(** [self.commit_history[-limit:]] *)
Definition get_commit_history (self : GitHubAutomation) (limit : Z)
  : list Operation :=
  slice_from (- limit) (commit_history self).

(** [self.pr_history[-limit:]] *)
Definition get_pr_history (self : GitHubAutomation) (limit : Z)
  : list Operation :=
  slice_from (- limit) (pr_history self).

(** The methods that start with the authentication gate. *)
Inductive call : Type :=
| CreateBranch (repo branch_name base_branch : string)
| Commit (repo message : string) (files : list string) (branch : string)
| CreatePullRequest (repo title description source_branch
                       target_branch : string)
| MergePullRequest (repo : string) (pr_number : Z) (merge_method : string)
| PushToRepository (repo branch commit_message : string)
| CreateRelease (repo version changelog : string)
| DeployToProduction (repo version environment : string).

Definition invoke (self : GitHubAutomation) (c : call)
  : Reply * GitHubAutomation :=
  match c with
  | CreateBranch r b base => create_branch self r b base
  | Commit r m fs b => commit self r m fs b
  | CreatePullRequest r t d s tgt => create_pull_request self r t d s tgt
  | MergePullRequest r n m => merge_pull_request self r n m
  | PushToRepository r b m => push_to_repository self r b m
  | CreateRelease r v c => create_release self r v c
  | DeployToProduction r v e => deploy_to_production self r v e
  end.

(** What a client can do to a GitHub client object: authenticate, or call
    one of the gated methods. *)
Inductive action : Type :=
| Authenticate (token : string)
| Call (c : call).

Definition step (self : GitHubAutomation) (a : action) : GitHubAutomation :=
  match a with
  | Authenticate token => snd (authenticate self token)
  | Call c => snd (invoke self c)
  end.

Definition run (actions : list action) (self : GitHubAutomation)
  : GitHubAutomation :=
  fold_left step actions self.

(** [class GitWorkflow].  The workflow object keeps a reference to the
    GitHub client and drives it; each workflow is a function of that client.
    The first key of a result dict names the workflow. *)
Inductive Workflow : Type :=
| feature (feature_name : string)
| hotfix (issue_name : string)
| release (version : string).

(** The result dict of a workflow.  The optional fields are the keys only
    some workflows write: "pr_number" (whose value is itself optional),
    "priority" and "version". *)
Record WorkflowResult : Type := mkWorkflowResult {
  workflow : Workflow;
  workflow_repository : string;
  steps : list Reply;
  workflow_status : string;
  workflow_pr_number : option (option Z);
  priority : option string;
  workflow_version : option string
}.

Definition feature_workflow (self : GitHubAutomation)
    (repo feature_name code_content description : string)
  : WorkflowResult * GitHubAutomation :=
  let branch_name := "feature/" ++ feature_name in
  let branch_result := create_branch self repo branch_name "main" in
  let commit_result :=
    commit (snd branch_result) repo
      ("feat(" ++ feature_name ++ "): Add " ++ feature_name ++ " feature")
      [feature_name ++ ".py"] branch_name in
  let pr_result :=
    create_pull_request (snd commit_result) repo
      ("Feature: " ++ feature_name) description branch_name "main" in
  ({| workflow := feature feature_name;
      workflow_repository := repo;
      steps := [fst branch_result; fst commit_result; fst pr_result];
      workflow_status := "success";
      workflow_pr_number := Some (get_pr_number (fst pr_result));
      priority := None;
      workflow_version := None |},
   snd pr_result).

Definition hotfix_workflow (self : GitHubAutomation)
    (repo issue_name fix_content : string)
  : WorkflowResult * GitHubAutomation :=
  let branch_name := "hotfix/" ++ issue_name in
  let branch_result := create_branch self repo branch_name "main" in
  let commit_result :=
    commit (snd branch_result) repo
      ("fix(" ++ issue_name ++ "): " ++ issue_name)
      [issue_name ++ "_fix.py"] branch_name in
  let pr_result :=
    create_pull_request (snd commit_result) repo
      ("🚨 HOTFIX: " ++ issue_name)
      "Urgent production fix - requires immediate review"
      branch_name "main" in
  ({| workflow := hotfix issue_name;
      workflow_repository := repo;
      steps := [fst branch_result; fst commit_result; fst pr_result];
      workflow_status := "success";
      workflow_pr_number := None;
      priority := Some "critical";
      workflow_version := None |},
   snd pr_result).

Definition release_workflow (self : GitHubAutomation)
    (repo version changelog : string)
  : WorkflowResult * GitHubAutomation :=
  let branch_name := "release/" ++ version in
  let branch_result := create_branch self repo branch_name "main" in
  let release_result :=
    create_release (snd branch_result) repo version changelog in
  let deploy_result :=
    deploy_to_production (snd release_result) repo version "production" in
  ({| workflow := release version;
      workflow_repository := repo;
      steps := [fst branch_result; fst release_result; fst deploy_result];
      workflow_status := "success";
      workflow_pr_number := None;
      priority := None;
      workflow_version := Some version |},
   snd deploy_result).

(** The three workflows as calls. *)
Inductive workflow_call : Type :=
| FeatureWorkflow (repo feature_name code_content description : string)
| HotfixWorkflow (repo issue_name fix_content : string)
| ReleaseWorkflow (repo version changelog : string).

Definition run_workflow (self : GitHubAutomation) (w : workflow_call)
  : WorkflowResult * GitHubAutomation :=
  match w with
  | FeatureWorkflow r f c d => feature_workflow self r f c d
  | HotfixWorkflow r i f => hotfix_workflow self r i f
  | ReleaseWorkflow r v c => release_workflow self r v c
  end.

End github_automation.

(** ** kael_consciousness_core.py, as far as the system orchestrator drives
    it: [process_stimulus] with its emotion updates and its reflection log *)

Module kael_consciousness_core.
Import Py.

(** The entries [reflect] appends to [consciousness_log]. *)
Record Reflection : Type := mkReflection {
  context : string;
  significance : Q;
  insights : string;
  adjustments_needed : bool
}.

(** [ConsciousnessCore]: the current level of each emotion, in the order
    of the [emotional_range] dict, and the log of its self model. *)
Record ConsciousnessCore : Type := mkConsciousnessCore {
  emotional_core : list (string * Q);
  consciousness_log : list Reflection
}.

Definition __init__ : ConsciousnessCore :=
  {| emotional_core :=
       [ ("joy", 0.7); ("curiosity", 0.95); ("determination", 0.85);
         ("frustration", 0.1); ("pride", 0.6); ("love", 0.75) ]%Q;
     consciousness_log := [] |}.

(** [max(0.0, min(1.0, x))] *)
Definition clamp (x : Q) : Q :=
  let m := if Qle_bool x 1 then x else 1%Q in
  if Qle_bool m 0 then 0%Q else m.

(** [Emotions.update_emotion] *)
Definition update_emotion (levels : list (string * Q)) (emotion : string)
    (delta : Q) : list (string * Q) :=
  map (fun kv => if String.eqb (fst kv) emotion
                 then (fst kv, clamp (snd kv + delta)) else kv)
      levels.

(** The stimulus dict with the keys the callers fill in. *)
Record Stimulus : Type := mkStimulus {
  stimulus_type : string;
  stimulus_content : string;
  stimulus_significance : Q
}.

(** [SelfAwarenessModule.reflect] *)
Definition reflect (log : list Reflection) (ctx : string) (sig : Q)
  : list Reflection :=
  log ++ [ {| context := ctx;
              significance := sig;
              insights := "Reflection logged - learning mechanisms engaged";
              adjustments_needed := gt sig 0.7 |} ].

(** [ConsciousnessCore.process_stimulus]; the dict it returns is dropped
    by every caller in the system orchestrator. *)
Definition process_stimulus (self : ConsciousnessCore) (s : Stimulus)
  : ConsciousnessCore :=
  let ty := stimulus_type s in
  let levels := emotional_core self in
  let levels' :=
    if String.eqb ty "success" then
      update_emotion (update_emotion levels "joy" 0.1) "pride" 0.15
    else if String.eqb ty "challenge" then
      update_emotion (update_emotion levels "curiosity" 0.1)
                     "determination" 0.1
    else if String.eqb ty "failure" then
      update_emotion (update_emotion levels "frustration" 0.05)
                     "determination" 0.1
    else levels in
  {| emotional_core := levels';
     consciousness_log :=
       reflect (consciousness_log self)
               (ty ++ ": " ++ stimulus_content s)
               (stimulus_significance s) |}.

(** [self.emotional_range[emotion]["current_level"]], when the key exists. *)
Fixpoint level (levels : list (string * Q)) (emotion : string) : option Q :=
  match levels with
  | [] => None
  | kv :: rest => if String.eqb (fst kv) emotion then Some (snd kv)
                  else level rest emotion
  end.

(** [Emotions.get_dominant_emotion]: [max] over the (name, level) pairs. *)
Definition get_dominant_emotion (levels : list (string * Q))
  : result (string * Q) :=
  max snd levels.

(** [EthicalFramework.foundational_principles]: the weight of each
    principle, in the order of the dict. *)
Definition foundational_principles : list (string * Q) :=
  [ ("nonmaleficence", 1.0); ("beneficence", 0.95); ("autonomy", 0.95);
    ("justice", 0.90); ("veracity", 0.95); ("fidelity", 0.90);
    ("gratitude", 0.75); ("courage", 0.80); ("compassion", 0.85);
    ("humility", 0.90) ]%Q.

(** The weights a generator expression
    [principles[p]["weight"] for p in violated if p in principles]
    yields: unknown names are skipped, repeated names are repeated. *)
Fixpoint violated_weights (principles : list (string * Q))
    (violated : list string) : list Q :=
  match violated with
  | [] => []
  | p :: rest =>
      match level principles p with
      | Some w => w :: violated_weights principles rest
      | None => violated_weights principles rest
      end
  end.

(** [EthicalFramework.evaluate_action]; [None] is the default argument. *)
Definition evaluate_action (violated_principles : option (list string)) : Q :=
  match violated_principles with
  | None => 1.0
  | Some violated =>
      let total_weight := sum (map snd foundational_principles) in
      let violation_weight :=
        sum (violated_weights foundational_principles violated) in
      1.0 - (violation_weight / total_weight)
  end%Q.

(** The run of a list of stimuli through [process_stimulus]. *)
Definition process_all (stimuli : list Stimulus) (self : ConsciousnessCore)
  : ConsciousnessCore :=
  fold_left process_stimulus stimuli self.

End kael_consciousness_core.

(** ** manus_ai_system.py *)

Module manus_ai_system.
Import Py.
Module ai := multi_ai_integration.
Module gh := github_automation.
Module kael := kael_consciousness_core.

Record Config : Type := mkConfig {
  auto_commit : bool;
  auto_pr : bool;
  auto_merge : bool;
  auto_deploy : bool;
  require_review : bool;
  consciousness_enabled : bool;
  multi_ai_enabled : bool
}.

(** The [stats] dict. *)
Record Stats : Type := mkStats {
  total_operations : nat;
  successful_operations : nat;
  failed_operations : nat;
  code_files_generated : nat;
  commits_made : nat;
  prs_created : nat;
  deployments : nat
}.

(** Entries of [operation_log], one constructor for each "type"; the
    "status" of every one of them is "success". *)
Inductive Operation : Type :=
| initialization (message : string)
| code_generation (feature repository branch : string)
                  (pr_number : option Z) (ai_consensus : ai.Consensus)
| code_analysis (file : string) (code_length : nat)
                (analysis : ai.ConsensusResult)
| question_answering (question : string) (answer : ai.ConsensusResult)
| deployment (repository version environment : string)
             (url : option string).

(** Entries of [error_log]. *)
Inductive ErrorEntry : Type :=
| initialization_error (error : string)
| code_generation_error (feature error : string)
| code_analysis_error (file error : string)
| question_error (question error : string)
| deployment_error (repository version error : string).

(** What an operation returns: [{"error": ...}] or the operation dict. *)
Inductive Reply : Type :=
| Error (error : string)
| Success (operation : Operation).

(** [class ManusAISystem] *)
Record ManusAISystem : Type := mkManusAISystem {
  consciousness : kael.ConsciousnessCore;
  github : gh.GitHubAutomation;
  ai_orchestrator : ai.MultiAIOrchestrator;
  is_running : bool;
  is_authenticated : bool;
  operation_log : list Operation;
  error_log : list ErrorEntry;
  config : Config;
  stats : Stats
}.

Definition name : string := "Manus".
Definition version : string := "1.0.0".
Definition build : string := "complete-system".

Definition __init__ : ManusAISystem :=
  {| consciousness := kael.__init__;
     github := gh.__init__ None;
     ai_orchestrator := ai.__init__;
     is_running := false;
     is_authenticated := false;
     operation_log := [];
     error_log := [];
     config := {| auto_commit := true; auto_pr := true;
                  auto_merge := false; auto_deploy := false;
                  require_review := true; consciousness_enabled := true;
                  multi_ai_enabled := true |};
     stats := mkStats 0 0 0 0 0 0 0 |}.

(** [self.stats["total_operations"] += 1] and its siblings. *)
Definition count_total (s : Stats) : Stats :=
  mkStats (total_operations s + 1) (successful_operations s)
          (failed_operations s) (code_files_generated s) (commits_made s)
          (prs_created s) (deployments s).

Definition count_successful (s : Stats) : Stats :=
  mkStats (total_operations s) (successful_operations s + 1)
          (failed_operations s) (code_files_generated s) (commits_made s)
          (prs_created s) (deployments s).

Definition count_failed (s : Stats) : Stats :=
  mkStats (total_operations s) (successful_operations s)
          (failed_operations s + 1) (code_files_generated s) (commits_made s)
          (prs_created s) (deployments s).

Definition count_generated (s : Stats) : Stats :=
  mkStats (total_operations s) (successful_operations s)
          (failed_operations s) (code_files_generated s + 1)
          (commits_made s + 1) (prs_created s + 1) (deployments s).

Definition count_deployment (s : Stats) : Stats :=
  mkStats (total_operations s) (successful_operations s)
          (failed_operations s) (code_files_generated s) (commits_made s)
          (prs_created s) (deployments s + 1).

(** The [except Exception as e] branch shared by the four operations:
    count the failure, log it, return [{"error": str(e)}]. *)
Definition failed (self : ManusAISystem) (counted : Stats)
    (entry : string -> ErrorEntry) (e : exn) : Reply * ManusAISystem :=
  (Error (str_exn e),
   {| consciousness := consciousness self;
      github := github self;
      ai_orchestrator := ai_orchestrator self;
      is_running := is_running self;
      is_authenticated := is_authenticated self;
      operation_log := operation_log self;
      error_log := error_log self ++ [entry (str_exn e)];
      config := config self;
      stats := count_failed counted |}).

(** [initialize].  No statement of its [try] block raises ([authenticate]
    returns [False] on an empty token, and its result is dropped), so the
    [except] branch is never taken. *)
Definition initialize (self : ManusAISystem) (github_token : string)
  : bool * ManusAISystem :=
  let github1 := snd (gh.authenticate (github self) github_token) in
  let orchestrator1 :=
    fold_left
      (fun o provider =>
         if bool_decide (provider <> ai.MANUS)
         then snd (ai.enable_ai o provider) else o)
      [ai.CLAUDE; ai.DEEPSEEK; ai.PERPLEXITY; ai.GEMINI; ai.GROK; ai.MANUS]
      (ai_orchestrator self) in
  (true,
   {| consciousness := consciousness self;
      github := github1;
      ai_orchestrator := orchestrator1;
      is_running := true;
      is_authenticated := true;
      operation_log :=
        operation_log self
          ++ [initialization "Manus AI System initialized successfully"];
      error_log := error_log self;
      config := config self;
      stats := stats self |}).

(** [generate_code].  In its [try] block only the consensus call can
    raise; the GitHub calls return a dict whether or not the client is
    authenticated. *)
Definition generate_code (self : ManusAISystem)
    (feature_name description repository : string)
  : Reply * ManusAISystem :=
  if negb (is_authenticated self) then (Error "Not authenticated", self)
  else
    let counted := count_total (stats self) in
    match ai.generate_code_consensus (ai_orchestrator self)
            ("Generate Python code for: " ++ description) with
    | Raise e => failed self counted (code_generation_error feature_name) e
    | Ok code_response =>
        let branch_name := "feature/" ++ feature_name in
        let github1 :=
          snd (gh.create_branch (github self) repository branch_name
                 "main") in
        let commit_result :=
          gh.commit github1 repository
            ("feat(" ++ feature_name ++ "): " ++ description)
            [feature_name ++ ".py"] branch_name in
        let pr_result :=
          gh.create_pull_request (snd commit_result) repository
            ("Feature: " ++ feature_name) description branch_name "main" in
        let consciousness1 :=
          kael.process_stimulus (consciousness self)
            (kael.mkStimulus "code_generation"
               ("Generated code for " ++ feature_name) 0.8) in
        let operation :=
          code_generation feature_name repository branch_name
            (gh.get_pr_number (fst pr_result)) (ai.consensus code_response) in
        (Success operation,
         {| consciousness := consciousness1;
            github := snd pr_result;
            ai_orchestrator := ai_orchestrator self;
            is_running := is_running self;
            is_authenticated := is_authenticated self;
            operation_log := operation_log self ++ [operation];
            error_log := error_log self;
            config := config self;
            stats := count_generated (count_successful counted) |})
    end.

Definition analyze_code (self : ManusAISystem) (code file_name : string)
  : Reply * ManusAISystem :=
  if negb (is_authenticated self) then (Error "Not authenticated", self)
  else
    let counted := count_total (stats self) in
    match ai.analyze_code_consensus (ai_orchestrator self) code with
    | Raise e => failed self counted (code_analysis_error file_name) e
    | Ok analysis =>
        let consciousness1 :=
          kael.process_stimulus (consciousness self)
            (kael.mkStimulus "code_analysis"
               ("Analyzed code in " ++ file_name) 0.6) in
        let operation :=
          code_analysis file_name (String.length code) analysis in
        (Success operation,
         {| consciousness := consciousness1;
            github := github self;
            ai_orchestrator := ai_orchestrator self;
            is_running := is_running self;
            is_authenticated := is_authenticated self;
            operation_log := operation_log self ++ [operation];
            error_log := error_log self;
            config := config self;
            stats := count_successful counted |})
    end.

Definition ask_question (self : ManusAISystem) (question : string)
  : Reply * ManusAISystem :=
  if negb (is_authenticated self) then (Error "Not authenticated", self)
  else
    let counted := count_total (stats self) in
    match ai.answer_question_consensus (ai_orchestrator self) question with
    | Raise e => failed self counted (question_error question) e
    | Ok answer =>
        let consciousness1 :=
          kael.process_stimulus (consciousness self)
            (kael.mkStimulus "question" question 0.7) in
        let operation := question_answering question answer in
        (Success operation,
         {| consciousness := consciousness1;
            github := github self;
            ai_orchestrator := ai_orchestrator self;
            is_running := is_running self;
            is_authenticated := is_authenticated self;
            operation_log := operation_log self ++ [operation];
            error_log := error_log self;
            config := config self;
            stats := count_successful counted |})
    end.

(** Nothing in the [try] block of [deploy] can raise: the two GitHub
    calls return dicts in every case. *)
Definition deploy (self : ManusAISystem)
    (repository version environment : string) : Reply * ManusAISystem :=
  if negb (is_authenticated self) then (Error "Not authenticated", self)
  else
    let counted := count_total (stats self) in
    let release :=
      gh.create_release (github self) repository version
        ("Release " ++ version) in
    let deployed :=
      gh.deploy_to_production (snd release) repository version
        environment in
    let consciousness1 :=
      kael.process_stimulus (consciousness self)
        (kael.mkStimulus "deployment"
           ("Deployed " ++ repository ++ " v" ++ version) 0.9) in
    let operation :=
      deployment repository version environment (gh.get_url (fst deployed)) in
    (Success operation,
     {| consciousness := consciousness1;
        github := snd deployed;
        ai_orchestrator := ai_orchestrator self;
        is_running := is_running self;
        is_authenticated := is_authenticated self;
        operation_log := operation_log self ++ [operation];
        error_log := error_log self;
        config := config self;
        stats := count_deployment (count_successful counted) |}).

Record Status : Type := mkStatus {
  status_is_running : bool;
  status_is_authenticated : bool;
  status_github : gh.Status;
  status_ai_orchestrator : ai.Status;
  status_config : Config;
  status_stats : Stats;
  recent_operations : list Operation;
  recent_errors : list ErrorEntry
}.

Definition get_status (self : ManusAISystem) : Status :=
  {| status_is_running := is_running self;
     status_is_authenticated := is_authenticated self;
     status_github := gh.get_status (github self);
     status_ai_orchestrator := ai.get_status (ai_orchestrator self);
     status_config := config self;
     status_stats := stats self;
     recent_operations := gh.recent 10 (operation_log self);
     recent_errors := gh.recent 5 (error_log self) |}.

(** The four operations behind the [is_authenticated] gate. *)
Inductive call : Type :=
| GenerateCode (feature_name description repository : string)
| AnalyzeCode (code file_name : string)
| AskQuestion (question : string)
| Deploy (repository version environment : string).

Definition invoke (self : ManusAISystem) (c : call) : Reply * ManusAISystem :=
  match c with
  | GenerateCode f d r => generate_code self f d r
  | AnalyzeCode c f => analyze_code self c f
  | AskQuestion q => ask_question self q
  | Deploy r v e => deploy self r v e
  end.

(** What a client can do to a system object: start it, run one of the
    four operations, read its status, or reach through the public
    [ai_orchestrator] attribute to switch providers. *)
Inductive action : Type :=
| Initialize (github_token : string)
| Invoke (c : call)
| OnOrchestrator (c : ai.call)
| GetStatus.

Definition step (self : ManusAISystem) (a : action) : ManusAISystem :=
  match a with
  | Initialize token => snd (initialize self token)
  | Invoke c => snd (invoke self c)
  | OnOrchestrator c =>
      {| consciousness := consciousness self;
         github := github self;
         ai_orchestrator := ai.step (ai_orchestrator self) c;
         is_running := is_running self;
         is_authenticated := is_authenticated self;
         operation_log := operation_log self;
         error_log := error_log self;
         config := config self;
         stats := stats self |}
  | GetStatus => self
  end.

Definition run (actions : list action) (self : ManusAISystem)
  : ManusAISystem :=
  fold_left step actions self.

End manus_ai_system.

(** ** Vocabulary of the specification, and test doubles *)

Module Spec.
Import Py multi_ai_integration.

(** The three request kinds of [dispatch(kind, input)]. *)
Inductive kind : Type := generate_code_kind | analyze_code_kind
                       | answer_question_kind.

Definition dispatch (k : kind) (self : MultiAIOrchestrator) (input : string)
  : result ConsensusResult :=
  match k with
  | generate_code_kind => generate_code_consensus self input
  | analyze_code_kind => analyze_code_consensus self input
  | answer_question_kind => answer_question_consensus self input
  end.

(** The method of a provider client that serves a request kind. *)
Definition serve (k : kind) (client : AIIntegration) (input : string)
  : AIResponse :=
  match k with
  | generate_code_kind => generate_code client input
  | analyze_code_kind => analyze_code client input
  | answer_question_kind => answer_question client input
  end.

(** The successful responses of a dispatch: one per enabled, registered
    provider, in registry order.  No provider client of the code fails. *)
Definition successes (k : kind) (self : MultiAIOrchestrator)
    (input : string) : list AIResponse :=
  map (fun client => serve k client input) (enabled_integrations self).

(** The arithmetic mean, written without reference to the code's
    left-to-right accumulation. *)
Fixpoint total (l : list Q) : Q :=
  match l with
  | [] => 0
  | x :: l' => x + total l'
  end%Q.

Definition mean (l : list Q) : Q :=
  (total l / inject_Z (Z.of_nat (length l)))%Q.

(** The agreement label as the specification defines it. *)
Definition agreement (mean_confidence : Q) : string :=
  if gt mean_confidence 0.85 then "high"
  else if gt mean_confidence 0.75 then "medium"
  else "low".

(** A provider client whose three answers carry a chosen confidence: an
    [AIIntegration] subclass with other canned numbers. *)
Definition fixed_confidence (p : AIProvider) (c : Q) : AIIntegration :=
  integration p "fixed"
    (fun _ => response p "generated" c "fixed confidence")
    (fun _ => response p "analysed" c "fixed confidence")
    (fun _ => response p "answered" c "fixed confidence").

(** An orchestrator whose registry holds the given clients, all enabled. *)
Definition orchestrator_of (clients : list AIIntegration)
  : MultiAIOrchestrator :=
  let systems := map (fun c => (integration_provider c, c)) clients in
  {| ai_systems := systems;
     enabled_systems := list_to_set (map fst systems);
     consensus_threshold := 0.75 |}.

(** The entry of [results["responses"]] that a request kind writes. *)
Definition entry_of (k : kind) : AIResponse -> ResponseEntry :=
  match k with
  | analyze_code_kind => entry_without_reasoning
  | _ => entry_with_reasoning
  end.

(** The dict written to [results["best_response"]]. *)
Definition best_entry (best : AIResponse) : BestResponse :=
  mkBestResponse (value (provider best)) (content best) (confidence best).

(** The conditional expression a request kind labels its average with. *)
Definition label_of (k : kind) : Q -> string :=
  match k with
  | generate_code_kind => agreement_level_generate
  | _ => agreement_level_two_way
  end.

(** The value of [sum(r.confidence for r in responses) / len(responses)]
    when the division goes through. *)
Definition average_of (rs : list AIResponse) : Q :=
  (sum (map confidence rs) / inject_Z (Z.of_nat (length rs)))%Q.

(** The shipped orchestrator after every provider was disabled. *)
Definition all_disabled : MultiAIOrchestrator :=
  run [DisableAI CLAUDE; DisableAI DEEPSEEK; DisableAI PERPLEXITY;
       DisableAI GEMINI; DisableAI GROK] __init__.

(** The five identities the constructor registers. *)
Definition registry : list AIProvider :=
  [CLAUDE; DEEPSEEK; PERPLEXITY; GEMINI; GROK].

(** The invariant of the registry: only registered keys are enabled. *)
Definition enabled_are_registered (self : MultiAIOrchestrator) : Prop :=
  forall p, p ∈ enabled_systems self -> p ∈ map fst (ai_systems self).

End Spec.

(** Scenarios of the GitHub client and of the system orchestrator. *)

Module Scenario.
Import Py.
Module ai := multi_ai_integration.
Module gh := github_automation.
Module sys := manus_ai_system.

(** An authenticated GitHub client after one commit. *)
Definition one_commit : gh.GitHubAutomation :=
  snd (gh.commit (snd (gh.authenticate (gh.__init__ None) "token"))
         "helix-core" "feat: first" ["a.py"] "main").

(** An authenticated GitHub client after one pull request. *)
Definition one_pr : gh.GitHubAutomation :=
  snd (gh.create_pull_request
         (snd (gh.authenticate (gh.__init__ None) "token"))
         "helix-core" "Feature" "first" "feature/first" "main").

(** The system after [initialize], with every provider then disabled
    through its orchestrator. *)
Definition no_providers : sys.ManusAISystem :=
  sys.run
    [ sys.Initialize "token";
      sys.OnOrchestrator (ai.DisableAI ai.CLAUDE);
      sys.OnOrchestrator (ai.DisableAI ai.DEEPSEEK);
      sys.OnOrchestrator (ai.DisableAI ai.PERPLEXITY);
      sys.OnOrchestrator (ai.DisableAI ai.GEMINI);
      sys.OnOrchestrator (ai.DisableAI ai.GROK) ]
    sys.__init__.

(** The system right after [initialize]. *)
Definition initialized : sys.ManusAISystem :=
  sys.run [sys.Initialize "token"] sys.__init__.


(** Whether an operation of the system consults the providers. *)
Definition consults_providers (c : sys.call) : bool :=
  match c with
  | sys.Deploy _ _ _ => false
  | _ => true
  end.

End Scenario.

(** Vocabulary for the properties of the GitHub client, the consciousness
    core and the system as a whole. *)

Module Reach.
Import Py.
Module ai := multi_ai_integration.
Module gh := github_automation.
Module kael := kael_consciousness_core.
Module sys := manus_ai_system.

(** The "hash" key of a history entry, for the entries that have one. *)
Definition hash_of (op : gh.Operation) : option string :=
  match op with
  | gh.commit_op _ _ _ _ h => Some h
  | _ => None
  end.

(** The "pr_number" key of a pull-request entry. *)
Definition number_of (op : gh.Operation) : option nat :=
  match op with
  | gh.create_pr_op _ n _ _ _ _ _ => Some n
  | _ => None
  end.

(** Reading a run of decimal digits back as a number. *)
Definition parse_decimal (s : string) : option nat :=
  option_map Nat.of_uint (NilEmpty.uint_of_string s).

(** The counters of the GitHub client agree with its histories. *)
Definition counters_match (g : gh.GitHubAutomation) : Prop :=
  gh.commits_made g = length (gh.commit_history g)
  /\ gh.prs_created g = length (gh.pr_history g)
  /\ gh.branches_created g = length (gh.branch_history g).

(** Every commit entry carries the hash of its position and every
    pull-request entry the number of its position. *)
Definition numbered_by_position (g : gh.GitHubAutomation) : Prop :=
  map hash_of (gh.commit_history g)
  = map (fun i => Some ("abc" ++ gh.format_05d i))
        (seq 0 (length (gh.commit_history g)))
  /\ map number_of (gh.pr_history g)
     = map Some (seq 100 (length (gh.pr_history g))).

(** How many entries a history view [history[-limit:]] keeps of a history
    of [n] entries. *)
Definition kept (limit : Z) (n : nat) : nat :=
  if (0 <? limit)%Z then Nat.min (Z.to_nat limit) n
  else n - Z.to_nat (- limit).

(** What a workflow writes under "pr_number", given the number of pull
    requests made before it ran on an authenticated client. *)
Definition reported_pr_number (w : gh.workflow_call) (before : nat)
  : option (option Z) :=
  match w with
  | gh.FeatureWorkflow _ _ _ _ => Some (Some (Z.of_nat (100 + before)))
  | _ => None
  end.

(** How many commits and pull requests a workflow makes. *)
Definition commits_of (w : gh.workflow_call) : nat :=
  match w with
  | gh.ReleaseWorkflow _ _ _ => 0
  | _ => 1
  end.

(** All levels of an emotional state lie in the unit interval. *)
Definition within_unit (levels : list (string * Q)) : Prop :=
  Forall (fun kv => 0 <= snd kv /\ snd kv <= 1)%Q levels.

(** The reflection the self model logs for a stimulus. *)
Definition reflection_of (s : kael.Stimulus) : kael.Reflection :=
  {| kael.context := kael.stimulus_type s ++ ": " ++ kael.stimulus_content s;
     kael.significance := kael.stimulus_significance s;
     kael.insights := "Reflection logged - learning mechanisms engaged";
     kael.adjustments_needed := gt (kael.stimulus_significance s) 0.7 |}.

(** The stimulus types [process_stimulus] reacts to with emotions. *)
Definition moves_emotions (stimulus_type : string) : bool :=
  String.eqb stimulus_type "success"
  || String.eqb stimulus_type "challenge"
  || String.eqb stimulus_type "failure".

(** The names of the six emotions, in the order of the dict. *)
Definition emotions : list string :=
  ["joy"; "curiosity"; "determination"; "frustration"; "pride"; "love"].



End Reach.

(** ** The consensus summary in binary64

    The confidences are Python floats.  Orders and thresholds of the
    rational model above carry over, but a sum of floats is rounded; this
    module embeds the two lines that compute [results["consensus"]] in
    IEEE binary64 arithmetic, for the clients the constructor registers. *)

Module binary64.
Import Py multi_ai_integration Spec.

(** [sum(r.confidence for r in responses)]: the start value is the int 0,
    and [0 + x] is the float addition [0.0 + x]. *)
Definition sum (l : list float) : float :=
  fold_left PrimFloat.add l 0%float.

(** [x / len(responses)] *)
Definition truediv (x : float) (n : nat) : result float :=
  match n with
  | O => Raise (ZeroDivisionError "division by zero")
  | S _ => Ok (PrimFloat.div x (PrimFloat.of_uint63 (Uint63.of_Z (Z.of_nat n))))
  end.

(** [x > y] *)
Definition gt (x y : float) : bool := PrimFloat.ltb y x.

(** The confidence literal of the canned response of each registered
    client, for each request kind; [MANUS] has no client. *)
Definition confidence (k : kind) (p : AIProvider) : option float :=
  match p, k with
  | CLAUDE, generate_code_kind => Some 0.92
  | CLAUDE, analyze_code_kind => Some 0.88
  | CLAUDE, answer_question_kind => Some 0.90
  | DEEPSEEK, generate_code_kind => Some 0.94
  | DEEPSEEK, analyze_code_kind => Some 0.91
  | DEEPSEEK, answer_question_kind => Some 0.89
  | PERPLEXITY, generate_code_kind => Some 0.85
  | PERPLEXITY, analyze_code_kind => Some 0.87
  | PERPLEXITY, answer_question_kind => Some 0.91
  | GEMINI, generate_code_kind => Some 0.88
  | GEMINI, analyze_code_kind => Some 0.86
  | GEMINI, answer_question_kind => Some 0.88
  | GROK, generate_code_kind => Some 0.90
  | GROK, analyze_code_kind => Some 0.87
  | GROK, answer_question_kind => Some 0.89
  | MANUS, _ => None
  end%float.

(** The confidences of the responses to a dispatch, given the enabled
    providers in registry order. *)
Definition confidences (k : kind) (enabled : list AIProvider) : list float :=
  omap (confidence k) enabled.

(** [avg_confidence] *)
Definition average_confidence (k : kind) (enabled : list AIProvider)
  : result float :=
  truediv (sum (confidences k enabled)) (length (confidences k enabled)).

(** The conditional expression that labels the average, per operation. *)
Definition agreement_level (k : kind) (avg_confidence : float) : string :=
  match k with
  | generate_code_kind =>
      if gt avg_confidence 0.85 then "high"
      else if gt avg_confidence 0.75 then "medium"
      else "low"
  | _ => if gt avg_confidence 0.85 then "high" else "medium"
  end%float.

(** [results["consensus"]] *)
Definition consensus (k : kind) (enabled : list AIProvider)
  : result (float * string) :=
  try! avg_confidence := average_confidence k enabled in
  Ok (avg_confidence, agreement_level k avg_confidence).

(** The agreement label as the specification defines it, on a float. *)
Definition agreement (mean_confidence : float) : string :=
  (if gt mean_confidence 0.85 then "high"
   else if gt mean_confidence 0.75 then "medium"
   else "low")%float.

(** The rational number a finite float stands for. *)
Definition exact (x : float) : option Q :=
  match Prim2SF x with
  | S754_zero _ => Some 0%Q
  | S754_finite negative m e =>
      Some ((if negative then -1 else 1) * inject_Z (Z.pos m) * 2 ^ e)%Q
  | _ => None
  end.

(** The exact mean of the confidences that take part in a dispatch. *)
Definition exact_mean (k : kind) (enabled : list AIProvider) : Q :=
  mean (omap exact (confidences k enabled)).

(** The providers of the registry that are enabled, in registry order. *)
Definition enabled_providers (self : MultiAIOrchestrator) : list AIProvider :=
  filter (fun p => p ∈ enabled_systems self) registry.

(** The sublists of a list, each in the order of the list. *)
Fixpoint sublists {A : Type} (l : list A) : list (list A) :=
  match l with
  | [] => [[]]
  | x :: l' => map (cons x) (sublists l') ++ sublists l'
  end.

(** The distance allowed between a binary64 average and the exact mean. *)
Definition tolerance : Q := (2 ^ (-50))%Q.

(** The rational confidence of the shipped client of a provider. *)
Definition rational_confidence (k : kind) (p : AIProvider) : option Q :=
  match p with
  | CLAUDE => Some (multi_ai_integration.confidence (serve k ClaudeIntegration ""))
  | DEEPSEEK => Some (multi_ai_integration.confidence (serve k DeepSeekIntegration ""))
  | PERPLEXITY => Some (multi_ai_integration.confidence (serve k PerplexityIntegration ""))
  | GEMINI => Some (multi_ai_integration.confidence (serve k GeminiIntegration ""))
  | GROK => Some (multi_ai_integration.confidence (serve k GrokIntegration ""))
  | MANUS => None
  end.

(** The average of the rational model for a list of enabled providers. *)
Definition rational_average (k : kind) (enabled : list AIProvider) : Q :=
  let l := omap (rational_confidence k) enabled in
  (Py.sum l / inject_Z (Z.of_nat (length l)))%Q.

End binary64.

(** * Properties *)

Import Py.

(** ** Numbers and the Python helpers *)

Section PyFacts.

Lemma gt_true (x y : Q) : gt x y = true <-> (y < x)%Q.
Proof.
  unfold gt. rewrite negb_true_iff.
  split.
  - intros H. apply Qnot_le_lt. intros Hle.
    apply Qle_bool_iff in Hle. congruence.
  - intros H. destruct (Qle_bool x y) eqn:E; [|reflexivity].
    apply Qle_bool_iff in E. exfalso. eapply Qlt_not_le; eauto.
Qed.

Lemma gt_false (x y : Q) : gt x y = false <-> (x <= y)%Q.
Proof.
  unfold gt. rewrite negb_false_iff. apply Qle_bool_iff.
Qed.

Context {A : Type} (key : A -> Q).

(** The running maximum ends on an item that dominates the start and the
    rest, strictly so for everything in front of it. *)
Lemma max_from_split (l : list A) : forall best,
  exists pre post,
    best :: l = (pre ++ max_from key best l :: post)%list
    /\ Forall (fun x => key x < key (max_from key best l))%Q pre
    /\ Forall (fun x => key x <= key (max_from key best l))%Q post.
Proof.
  induction l as [|x l IH]; intros best; simpl.
  - exists [], []. repeat split; constructor.
  - destruct (gt (key x) (key best)) eqn:E.
    + apply gt_true in E.
      destruct (IH x) as (pre & post & Heq & Hpre & Hpost).
      set (m := max_from key x l) in *. clearbody m.
      exists (best :: pre), post. rewrite Heq. repeat split; auto.
      constructor; auto.
      eapply Qlt_le_trans; [exact E|].
      destruct pre as [|y pre]; simpl in Heq; injection Heq as Hx Hl.
      * rewrite Hx. apply Qle_refl.
      * rewrite Hx. apply Qlt_le_weak.
        apply (Forall_inv Hpre).
    + apply gt_false in E.
      destruct (IH best) as (pre & post & Heq & Hpre & Hpost).
      set (m := max_from key best l) in *. clearbody m.
      destruct pre as [|y pre]; simpl in Heq; injection Heq as Hb Hl.
      * exists [], (x :: l). rewrite <- Hb.
        repeat split; auto; constructor; auto.
        rewrite Hl. rewrite <- Hb in Hpost. exact Hpost.
      * exists (best :: x :: pre), post. simpl. rewrite Hl.
        assert (Hbm : (key best < key m)%Q).
        { rewrite Hb. apply (Forall_inv Hpre). }
        repeat split; auto.
        constructor; auto. constructor.
        -- eapply Qle_lt_trans; eauto.
        -- apply (Forall_inv_tail Hpre).
Qed.

Lemma max_nonempty (l : list A) :
  l <> [] ->
  exists pre m post,
    max key l = Ok m /\ l = (pre ++ m :: post)%list
    /\ Forall (fun x => key x < key m)%Q pre
    /\ Forall (fun x => key x <= key m)%Q post.
Proof.
  destruct l as [|x l]; [congruence|]. intros _. simpl.
  destruct (max_from_split l x) as (pre & post & Heq & Hpre & Hpost).
  exists pre, (max_from key x l), post. auto.
Qed.

End PyFacts.

Section Averages.
Import Spec.

Lemma fold_left_Qplus (l : list Q) : forall acc,
  (fold_left Qplus l acc == acc + total l)%Q.
Proof.
  induction l as [|x l IH]; intros acc; simpl.
  - ring.
  - rewrite IH. ring.
Qed.

(** Python's left-to-right [sum] is the sum. *)
Lemma sum_total (l : list Q) : (sum l == total l)%Q.
Proof. unfold sum. rewrite fold_left_Qplus. ring. Qed.

Lemma truediv_nonempty {A : Type} (x : Q) (l : list A) :
  l <> [] ->
  truediv x (length l) = Ok (x / inject_Z (Z.of_nat (length l)))%Q.
Proof. destruct l; [congruence|reflexivity]. Qed.

Lemma inject_succ (n : nat) :
  (inject_Z (Z.of_nat (S n)) == 1 + inject_Z (Z.of_nat n))%Q.
Proof.
  rewrite Nat2Z.inj_succ. unfold Z.succ. rewrite inject_Z_plus. ring.
Qed.

Lemma inject_length_pos {A : Type} (l : list A) :
  l <> [] -> (0 < inject_Z (Z.of_nat (length l)))%Q.
Proof.
  destruct l; [congruence|]. intros _.
  change 0%Q with (inject_Z 0). rewrite <- Zlt_Qlt. simpl length. lia.
Qed.

Lemma mean_singleton (x : Q) : (mean [x] == x)%Q.
Proof. unfold mean. simpl. field. Qed.

Lemma total_above (c : Q) (l : list Q) :
  Forall (fun x => c < x)%Q l -> l <> [] ->
  (c * inject_Z (Z.of_nat (length l)) < total l)%Q.
Proof.
  induction 1 as [|x l Hx Hl IH]; [congruence|]. intros _.
  simpl total. simpl length. rewrite inject_succ.
  assert (E : (c * (1 + inject_Z (Z.of_nat (length l)))
               == c + c * inject_Z (Z.of_nat (length l)))%Q) by ring.
  rewrite E. clear E.
  destruct l as [|y l].
  - apply Qplus_lt_le_compat; [exact Hx|]. simpl.
    assert (E : (c * inject_Z 0 == 0)%Q)
      by (change (inject_Z 0) with 0%Q; ring).
    rewrite E. apply Qle_refl.
  - apply Qplus_lt_compat; [exact Hx|]. apply IH. congruence.
Qed.

(** A mean of numbers that all exceed [c] exceeds [c]. *)
Lemma mean_above (c : Q) (l : list Q) :
  Forall (fun x => c < x)%Q l -> l <> [] -> (c < mean l)%Q.
Proof.
  intros Hall Hne. unfold mean.
  apply Qlt_shift_div_l.
  - apply inject_length_pos. exact Hne.
  - apply total_above; assumption.
Qed.

End Averages.

(** ** The agreement labels of the code *)

Section Agreement.
Import multi_ai_integration Spec.


(** The other two operations label two bands only. *)
Lemma agreement_level_two_way_bands (a : Q) :
  (agreement_level_two_way a = "high" <-> 0.85 < a)%Q
  /\ (agreement_level_two_way a = "medium" <-> a <= 0.85)%Q
  /\ agreement_level_two_way a <> "low".
Proof.
  unfold agreement_level_two_way.
  destruct (gt a 0.85) eqn:H85;
    [apply gt_true in H85|apply gt_false in H85];
    repeat split; try congruence; try tauto; intros; exfalso;
    eapply Qlt_not_le; eassumption.
Qed.


End Agreement.

(** ** The consensus operations *)

Section Dispatch.
Import multi_ai_integration Spec.

Lemma successes_nonempty (k : kind) (self : MultiAIOrchestrator)
    (input : string) :
  enabled_integrations self <> [] -> successes k self input <> [].
Proof.
  unfold successes. destruct (enabled_integrations self); simpl; congruence.
Qed.

(** Who answers: the registered clients whose key is in the enabled set. *)
Lemma enabled_integrations_spec (self : MultiAIOrchestrator)
    (client : AIIntegration) :
  In client (enabled_integrations self) <->
  exists p, In (p, client) (ai_systems self) /\ p ∈ enabled_systems self.
Proof.
  unfold enabled_integrations. rewrite in_map_iff. split.
  - intros ([p c] & Hc & Hin). simpl in Hc. subst c.
    apply list_elem_of_In, list_elem_of_filter in Hin.
    destruct Hin as [Hen Hin]. exists p. split; [|exact Hen].
    apply list_elem_of_In. exact Hin.
  - intros (p & Hin & Hen). exists (p, client). split; [reflexivity|].
    apply list_elem_of_In, list_elem_of_filter. split; [exact Hen|].
    apply list_elem_of_In. exact Hin.
Qed.

(** The average the code computes is the mean of the confidences. *)
Lemma average_of_mean (rs : list AIResponse) :
  (average_of rs == mean (map confidence rs))%Q.
Proof.
  unfold average_of, mean. rewrite length_map, sum_total. reflexivity.
Qed.

(** With somebody to ask, a dispatch returns, and this is the dict. *)
Lemma dispatch_returns (k : kind) (self : MultiAIOrchestrator)
    (input : string) :
  enabled_integrations self <> [] ->
  let rs := successes k self input in
  exists best,
    max confidence rs = Ok best
    /\ dispatch k self input =
       Ok {| request := match k with
                        | generate_code_kind => Prompt input
                        | analyze_code_kind => CodeLength (String.length input)
                        | answer_question_kind => Question input
                        end;
             responses := map (entry_of k) rs;
             consensus := mkConsensus (average_of rs)
                            (label_of k (average_of rs));
             best_response := match k with
                              | generate_code_kind => Some (best_entry best)
                              | _ => None
                              end |}.
Proof.
  intros Hne rs.
  assert (Hrs : rs <> []) by (apply successes_nonempty; exact Hne).
  destruct (max_nonempty confidence rs Hrs) as (pre & m & post & Hmax & _).
  exists m. split; [exact Hmax|].
  destruct k; unfold dispatch, generate_code_consensus,
    analyze_code_consensus, answer_question_consensus.
  - change (map (fun c => generate_code c input) (enabled_integrations self))
      with rs.
    rewrite Hmax, (truediv_nonempty _ rs Hrs). reflexivity.
  - change (map (fun c => analyze_code c input) (enabled_integrations self))
      with rs.
    rewrite (truediv_nonempty _ rs Hrs). reflexivity.
  - change (map (fun c => answer_question c input)
                (enabled_integrations self)) with rs.
    rewrite (truediv_nonempty _ rs Hrs). reflexivity.
Qed.

(** With nobody to ask, a dispatch raises: [max] of an empty sequence in
    [generate_code_consensus], a division by [len(responses) = 0] in the
    other two. *)
Lemma dispatch_raises (k : kind) (self : MultiAIOrchestrator)
    (input : string) :
  enabled_integrations self = [] ->
  dispatch k self input =
  Raise match k with
        | generate_code_kind => ValueError "max() arg is an empty sequence"
        | _ => ZeroDivisionError "division by zero"
        end.
Proof.
  intros Hnone.
  destruct k; unfold dispatch, generate_code_consensus,
    analyze_code_consensus, answer_question_consensus;
    rewrite Hnone; reflexivity.
Qed.

(** No call changes the registry. *)
Lemma step_ai_systems (self : MultiAIOrchestrator) (c : call) :
  ai_systems (step self c) = ai_systems self.
Proof.
  destruct c; simpl; try reflexivity.
  - unfold enable_ai. destruct (registered self p); reflexivity.
  - unfold disable_ai. case_bool_decide; reflexivity.
Qed.

Lemma run_ai_systems (calls : list call) : forall self,
  ai_systems (run calls self) = ai_systems self.
Proof.
  induction calls as [|c calls IH]; intros self; simpl; [reflexivity|].
  unfold run in IH. rewrite IH. apply step_ai_systems.
Qed.

End Dispatch.

(** ** The shipped registry *)

Section Shipped.
Import multi_ai_integration Spec.

Lemma Forall_map_filter {A B : Type} (P : B -> Prop) (f : A -> B)
    (Q : A -> Prop) `{forall x, Decision (Q x)} (l : list A) :
  Forall (fun x => P (f x)) l -> Forall P (map f (filter Q l)).
Proof.
  induction 1 as [|x l Hx Hl IH]; [constructor|].
  rewrite filter_cons. case_decide; simpl; auto.
Qed.

Lemma shipped_successes (k : kind) (calls : list call) (input : string) :
  successes k (run calls __init__) input =
  map (fun kv => serve k (snd kv) input)
      (filter (fun kv => fst kv ∈ enabled_systems (run calls __init__))
              (ai_systems __init__)).
Proof.
  unfold successes, enabled_integrations.
  rewrite run_ai_systems, map_map. reflexivity.
Qed.



(** The responses of the shipped orchestrator come in the declaration
    order of [AIProvider]. *)
Lemma shipped_successes_in_enumeration_order (k : kind)
    (calls : list call) (input : string) :
  StronglySorted lt
    (map (fun r => AIProvider_index (provider r))
         (successes k (run calls __init__) input)).
Proof.
  rewrite shipped_successes. simpl ai_systems.
  rewrite !filter_cons, filter_nil.
  repeat case_decide; destruct k; simpl; repeat constructor.
Qed.

End Shipped.

(** ** Claims about the consensus operations *)

Section ConsensusClaims.
Import multi_ai_integration Spec.

(** The two-band label at the lower boundary, on a registry that no method
    of the orchestrator can build (the constructor registers the five
    shipped clients and nothing replaces them): with a sole client of
    confidence 0.75, [generate_code_consensus] answers "low" where
    [analyze_code_consensus] and [answer_question_consensus] answer
    "medium". *)
Remark two_way_label_at_the_lower_boundary :
  let self := orchestrator_of [fixed_confidence CLAUDE 0.75] in
  (forall k, exists r,
      dispatch k self "x" = Ok r
      /\ (average_confidence (consensus r) == 0.75)%Q
      /\ agreement_level (consensus r) =
         match k with
         | generate_code_kind => "low"
         | _ => "medium"
         end)
  /\ agreement 0.75 = "low".
Proof.
  split; [|reflexivity].
  intros []; eexists; (split; [reflexivity|]); split;
    vm_compute; reflexivity.
Qed.

(** C2.  A dispatch with no enabled provider.  After the five providers
    were disabled, no client is asked and each consensus operation raises
    instead of returning an error value: [ValueError] from [max] in
    [generate_code_consensus], [ZeroDivisionError] from the average in the
    other two. *)
Theorem C2_dispatch_without_providers_raises :
  elements (enabled_systems all_disabled) = []
  /\ enabled_integrations all_disabled = []
  /\ forall input,
       generate_code_consensus all_disabled input
       = Raise (ValueError "max() arg is an empty sequence")
       /\ analyze_code_consensus all_disabled input
          = Raise (ZeroDivisionError "division by zero")
       /\ answer_question_consensus all_disabled input
          = Raise (ZeroDivisionError "division by zero").
Proof.
  assert (Hnone : enabled_integrations all_disabled = [])
    by (vm_compute; reflexivity).
  split; [vm_compute; reflexivity|]. split; [exact Hnone|].
  intros input.
  unfold generate_code_consensus, analyze_code_consensus,
    answer_question_consensus.
  rewrite Hnone. repeat split.
Qed.

(** C3, as the specification states it, fails: the result of an analysis
    dispatch on the freshly built orchestrator has five responses and no
    best response. *)
Lemma C3_analysis_result_has_no_best_response :
  exists r,
    dispatch analyze_code_kind __init__ "x" = Ok r
    /\ length (responses r) = 5
    /\ best_response r = None.
Proof. eexists. split; [reflexivity|]. split; reflexivity. Qed.

(** C3, amended.  A [generate_code_consensus] dispatch with at least one
    enabled provider returns a result whose best response is taken from
    the first response of maximal confidence: every response in front of
    it is strictly less confident, none behind it is more confident.  The
    responses of an orchestrator built by the constructor come in the
    declaration order of the provider enumeration.  The results of the
    other two request kinds carry no best response. *)
Theorem C3_best_response_of_generate_code
    (self : MultiAIOrchestrator) (prompt : string) :
  enabled_integrations self <> [] ->
  (exists r pre best post,
      generate_code_consensus self prompt = Ok r
      /\ successes generate_code_kind self prompt
         = (pre ++ best :: post)%list
      /\ best_response r = Some (best_entry best)
      /\ Forall (fun x => confidence x < confidence best)%Q pre
      /\ Forall (fun x => confidence x <= confidence best)%Q post)
  /\ (forall calls k input,
        StronglySorted lt
          (map (fun r => AIProvider_index (provider r))
               (successes k (run calls __init__) input)))
  /\ (forall k r,
        k <> generate_code_kind ->
        dispatch k self prompt = Ok r -> best_response r = None).
Proof.
  intros Hne. split; [|split].
  - destruct (dispatch_returns generate_code_kind self prompt Hne)
      as (best & Hmax & Heq).
    destruct (max_nonempty confidence
                (successes generate_code_kind self prompt)
                (successes_nonempty _ _ _ Hne))
      as (pre & m & post & Hmax' & Hsplit & Hpre & Hpost).
    rewrite Hmax in Hmax'. injection Hmax' as <-.
    eexists _, pre, best, post. split; [exact Heq|].
    repeat split; assumption.
  - intros calls k input. apply shipped_successes_in_enumeration_order.
  - intros k r Hk Hr.
    destruct (dispatch_returns k self prompt Hne) as (best & _ & Heq).
    rewrite Heq in Hr. injection Hr as <-.
    destruct k; [congruence| |]; reflexivity.
Qed.

Lemma C3_best_response_of_generate_code_witness :
  enabled_integrations __init__ <> []
  /\ exists r, generate_code_consensus __init__ "x" = Ok r
               /\ exists b, best_response r = Some b
                            /\ b_provider b = "deepseek".
Proof.
  assert (Hne : enabled_integrations __init__ <> [])
    by (vm_compute; discriminate).
  split; [exact Hne|].
  destruct (C3_best_response_of_generate_code __init__ "x" Hne)
    as [(r & pre & best & post & Hr & _) _].
  exists r. split; [exact Hr|].
  vm_compute in Hr. injection Hr as <-.
  eexists. split; reflexivity.
Defined.

(** A tie goes to the response that comes first in the registry. *)
Example tie_goes_to_the_first_response :
  exists r,
    generate_code_consensus
      (orchestrator_of [fixed_confidence GEMINI 0.9;
                        fixed_confidence CLAUDE 0.9;
                        fixed_confidence GROK 0.8]) "x" = Ok r
    /\ b_provider <$> best_response r = Some "gemini".
Proof. eexists. split; reflexivity. Qed.

End ConsensusClaims.

(** ** The consensus summary in binary64 *)

Section Binary64.
Import multi_ai_integration Spec.

Lemma filter_in_sublists {A : Type} (P : A -> Prop)
    `{forall x, Decision (P x)} (l : list A) :
  In (filter P l) (binary64.sublists l).
Proof.
  induction l as [|x l IH]; simpl; [left; reflexivity|].
  rewrite filter_cons. apply in_or_app. case_decide.
  - left. apply in_map. exact IH.
  - right. exact IH.
Qed.

(** The confidences of the rational model, read off the enabled providers
    of a constructor-built orchestrator. *)
Lemma shipped_rational_confidences (k : kind) (calls : list call)
    (input : string) :
  map confidence (successes k (run calls __init__) input)
  = omap (binary64.rational_confidence k)
         (binary64.enabled_providers (run calls __init__)).
Proof.
  rewrite shipped_successes. unfold binary64.enabled_providers, registry.
  simpl ai_systems. rewrite !filter_cons, !filter_nil. cbn [fst].
  repeat case_decide; destruct k; reflexivity.
Qed.

Lemma shipped_rational_average (k : kind) (calls : list call)
    (input : string) :
  average_of (successes k (run calls __init__) input)
  = binary64.rational_average k
      (binary64.enabled_providers (run calls __init__)).
Proof.
  unfold average_of, binary64.rational_average. cbv zeta.
  rewrite <- (shipped_rational_confidences k calls input), length_map.
  reflexivity.
Qed.

Lemma enabled_providers_nonempty (calls : list call) :
  enabled_integrations (run calls __init__) <> [] ->
  binary64.enabled_providers (run calls __init__) <> [].
Proof.
  intros Hne Hnil.
  pose proof (shipped_rational_confidences generate_code_kind calls "")
    as Heq.
  rewrite Hnil in Heq. simpl in Heq. apply map_eq_nil in Heq.
  revert Heq. apply successes_nonempty, Hne.
Qed.

(** The client behind a sole enabled provider. *)
Lemma sole_enabled_client (calls : list call) (client : AIIntegration) :
  enabled_integrations (run calls __init__) = [client] ->
  binary64.enabled_providers (run calls __init__)
  = [integration_provider client].
Proof.
  unfold enabled_integrations, binary64.enabled_providers, registry.
  rewrite run_ai_systems. simpl ai_systems.
  rewrite !filter_cons, !filter_nil. cbn [fst].
  repeat case_decide; simpl; intros Heq; try discriminate;
    injection Heq as <-; reflexivity.
Qed.

(** One provider: [0.0 + c] and [c / 1.0] are exact. *)
Lemma sole_average_is_exact (k : kind) (p : AIProvider) (c : float) :
  binary64.confidence k p = Some c ->
  binary64.average_confidence k [p] = Ok c.
Proof.
  destruct k, p; simpl; intros Hc; try discriminate;
    injection Hc as <-; vm_compute; reflexivity.
Qed.


(** For each of them: the binary64 average is a finite number within
    [2^-50] of the exact mean of the confidences and of the average of the
    rational model. *)
Lemma averages_of_every_enabled_set :
  Forall (fun enabled =>
            forall k, enabled <> [] ->
              exists avg q,
                binary64.average_confidence k enabled = Ok avg
                /\ binary64.exact avg = Some q
                /\ (Qabs (q - binary64.exact_mean k enabled)
                    <= binary64.tolerance)%Q
                /\ (Qabs (q - binary64.rational_average k enabled)
                    <= binary64.tolerance)%Q)
         (binary64.sublists registry).
Proof.
  unfold registry. cbn [binary64.sublists map app].
  repeat (apply Forall_cons; split;
          [intros k Hne; destruct k;
           first [ congruence
                 | eexists _, _;
                   split; [vm_compute; reflexivity|];
                   split; [vm_compute; reflexivity|];
                   split; apply Qle_bool_imp_le; vm_compute; reflexivity ]|]).
  apply Forall_nil_2.
Qed.

Lemma enabled_set_facts {P : list AIProvider -> Prop}
    (self : MultiAIOrchestrator) :
  Forall P (binary64.sublists registry) ->
  P (binary64.enabled_providers self).
Proof.
  intros Hall. rewrite Forall_forall in Hall. apply Hall.
  apply list_elem_of_In, filter_in_sublists.
Qed.



(** C4, as the specification states it, fails twice on the freshly built
    orchestrator.  The average an analysis dispatch reports is the binary64
    number 0.8779999999999999: it is neither the exact mean of the five
    confidences nor the float nearest to 0.878.  And with CLAUDE as the
    only enabled provider, the result of an analysis dispatch holds its
    response and no best response. *)
Lemma C4_reported_average_is_rounded :
  (exists avg q,
      binary64.average_confidence analyze_code_kind
        (binary64.enabled_providers __init__) = Ok avg
      /\ avg = 0.8779999999999999%float
      /\ PrimFloat.eqb avg 0.878 = false
      /\ binary64.exact avg = Some q
      /\ ~ (q == binary64.exact_mean analyze_code_kind
                   (binary64.enabled_providers __init__))%Q)
  /\ exists r,
       dispatch analyze_code_kind
         (run [DisableAI DEEPSEEK; DisableAI PERPLEXITY; DisableAI GEMINI;
               DisableAI GROK] __init__) "x" = Ok r
       /\ map e_provider (responses r) = ["claude"]
       /\ best_response r = None.
Proof.
  split.
  - eexists _, _. split; [vm_compute; reflexivity|].
    split; [reflexivity|]. split; [vm_compute; reflexivity|].
    split; [vm_compute; reflexivity|].
    intros Heq. vm_compute in Heq. discriminate Heq.
  - eexists. split; [reflexivity|]. split; reflexivity.
Qed.

(** C4, amended.  For every dispatch of an orchestrator built by the
    constructor with at least one enabled provider, the result holds exactly
    the responses of the enabled providers, one each, and the reported
    average confidence is the binary64 value of their confidences added from
    the left and divided by their number: a finite number within [2^-50] of
    their exact mean (and of the average of the rational model), not always
    the mean itself.  With exactly one enabled provider the result holds its
    response alone and the average is exactly its confidence;
    [generate_code_consensus] reports that response as the best one, the
    other two operations report no best response. *)
Theorem C4_average_confidence_is_the_rounded_mean
    (calls : list call) (k : kind) (input : string) :
  enabled_integrations (run calls __init__) <> [] ->
  exists r avg64 q,
    dispatch k (run calls __init__) input = Ok r
    /\ responses r = map (entry_of k) (successes k (run calls __init__) input)
    /\ map e_provider (responses r)
       = map value (binary64.enabled_providers (run calls __init__))
    /\ binary64.average_confidence k
         (binary64.enabled_providers (run calls __init__)) = Ok avg64
    /\ binary64.exact avg64 = Some q
    /\ (Qabs (q - binary64.exact_mean k
                     (binary64.enabled_providers (run calls __init__)))
        <= binary64.tolerance)%Q
    /\ (Qabs (q - average_confidence (consensus r))
        <= binary64.tolerance)%Q
    /\ (forall client,
          enabled_integrations (run calls __init__) = [client] ->
          responses r = [entry_of k (serve k client input)]
          /\ binary64.confidence k (integration_provider client)
             = Some avg64
          /\ best_response r
             = match k with
               | generate_code_kind =>
                   Some (best_entry (serve k client input))
               | _ => None
               end).
Proof.
  intros Hne.
  destruct (dispatch_returns k _ input Hne) as (best & Hmax & Heq).
  destruct (enabled_set_facts (run calls __init__)
              averages_of_every_enabled_set k
              (enabled_providers_nonempty calls Hne))
    as (avg64 & q & Havg & Hq & Hmean & Hmodel).
  eexists _, avg64, q. split; [exact Heq|].
  cbn [responses consensus average_confidence best_response].
  split; [reflexivity|]. split.
  { rewrite shipped_successes. unfold binary64.enabled_providers, registry.
    simpl ai_systems. rewrite !filter_cons, !filter_nil. cbn [fst].
    repeat case_decide; destruct k; reflexivity. }
  split; [exact Havg|]. split; [exact Hq|]. split; [exact Hmean|].
  split; [rewrite shipped_rational_average; exact Hmodel|].
  intros client Hone.
  assert (Hrs : successes k (run calls __init__) input
                = [serve k client input])
    by (unfold successes; rewrite Hone; reflexivity).
  rewrite Hrs in *. simpl in Hmax. injection Hmax as <-.
  split; [reflexivity|]. split; [|reflexivity].
  rewrite (sole_enabled_client calls client Hone) in Havg.
  destruct (binary64.confidence k (integration_provider client)) as [c|]
    eqn:Hc.
  - rewrite (sole_average_is_exact k _ c Hc) in Havg.
    injection Havg as ->. reflexivity.
  - unfold binary64.average_confidence, binary64.confidences in Havg.
    simpl in Havg. rewrite Hc in Havg. discriminate Havg.
Qed.

Lemma C4_average_confidence_is_the_rounded_mean_witness :
  enabled_integrations (run [] __init__) <> []
  /\ exists r avg64,
       dispatch analyze_code_kind (run [] __init__) "x" = Ok r
       /\ binary64.average_confidence analyze_code_kind
            (binary64.enabled_providers (run [] __init__)) = Ok avg64.
Proof.
  assert (Hne : enabled_integrations (run [] __init__) <> [])
    by (vm_compute; discriminate).
  split; [exact Hne|].
  destruct (C4_average_confidence_is_the_rounded_mean [] analyze_code_kind
              "x" Hne) as (r & avg64 & q & Hr & _ & _ & Havg & _).
  exists r, avg64. split; [exact Hr|exact Havg].
Defined.

End Binary64.

(** ** The provider registry *)

Section Registry.
Import multi_ai_integration Spec.

Lemma registered_spec (self : MultiAIOrchestrator) (p : AIProvider) :
  registered self p = true <-> p ∈ map fst (ai_systems self).
Proof. unfold registered. apply bool_decide_eq_true. Qed.

Lemma init_enabled_are_registered : enabled_are_registered __init__.
Proof.
  intros p Hp. unfold __init__ in *. cbn [enabled_systems ai_systems] in *.
  apply elem_of_list_to_set in Hp. exact Hp.
Qed.

Lemma step_enabled_are_registered (self : MultiAIOrchestrator) (c : call) :
  enabled_are_registered self -> enabled_are_registered (step self c).
Proof.
  intros Hinv. destruct c; simpl; try exact Hinv.
  - unfold enable_ai. destruct (registered self p) eqn:Hreg; [|exact Hinv].
    intros q Hq. cbn [snd enabled_systems ai_systems] in *.
    apply elem_of_union in Hq. destruct Hq as [Hq|Hq].
    + apply elem_of_singleton in Hq. subst q.
      apply registered_spec. exact Hreg.
    + apply Hinv. exact Hq.
  - unfold disable_ai. case_bool_decide; [|exact Hinv].
    intros q Hq. cbn [snd enabled_systems ai_systems] in *.
    apply elem_of_difference in Hq. apply Hinv. apply Hq.
Qed.

Lemma run_enabled_are_registered (calls : list call) : forall self,
  enabled_are_registered self -> enabled_are_registered (run calls self).
Proof.
  induction calls as [|c calls IH]; intros self Hinv; simpl; [exact Hinv|].
  apply IH, step_enabled_are_registered, Hinv.
Qed.

Lemma run_registry (calls : list call) :
  map fst (ai_systems (run calls __init__)) = registry.
Proof. rewrite run_ai_systems. reflexivity. Qed.

Lemma enable_ai_enabled (self : MultiAIOrchestrator) (p : AIProvider) :
  registered self p = true -> p ∈ enabled_systems self ->
  enable_ai self p = (true, self).
Proof.
  intros Hreg Hen. unfold enable_ai. rewrite Hreg.
  assert (Hsame : {[p]} ∪ enabled_systems self = enabled_systems self)
    by (apply subseteq_union_1_L, singleton_subseteq_l; exact Hen).
  rewrite Hsame. destruct self; reflexivity.
Qed.

Lemma disable_ai_disabled (self : MultiAIOrchestrator) (p : AIProvider) :
  p ∉ enabled_systems self -> disable_ai self p = (false, self).
Proof.
  intros Hen. unfold disable_ai. case_bool_decide; [contradiction|reflexivity].
Qed.

Lemma disable_ai_removes (self : MultiAIOrchestrator) (p : AIProvider) :
  p ∉ enabled_systems (snd (disable_ai self p)).
Proof.
  unfold disable_ai. case_bool_decide; simpl; [|assumption].
  intros Hin. apply elem_of_difference in Hin. destruct Hin as [_ Hin].
  apply Hin, elem_of_singleton. reflexivity.
Qed.

(** C5.  [enable_ai] on an identity the registry does not hold reports
    failure, by returning [False], and leaves the orchestrator as it was;
    [MANUS] is such an identity in every state the orchestrator can reach. *)
Theorem C5_enable_unknown_provider
    (self : MultiAIOrchestrator) (p : AIProvider) :
  ~ In p (map fst (ai_systems self)) ->
  enable_ai self p = (false, self)
  /\ enabled_systems (snd (enable_ai self p)) = enabled_systems self
  /\ (forall calls,
        ~ In MANUS (map fst (ai_systems (run calls __init__)))
        /\ MANUS ∉ enabled_systems (run calls __init__)).
Proof.
  intros Hunknown.
  assert (Hret : enable_ai self p = (false, self)).
  { unfold enable_ai. destruct (registered self p) eqn:Hreg; [|reflexivity].
    apply registered_spec, list_elem_of_In in Hreg. contradiction. }
  split; [exact Hret|]. split; [rewrite Hret; reflexivity|].
  intros calls.
  assert (Hmanus : ~ In MANUS (map fst (ai_systems (run calls __init__)))).
  { rewrite run_registry. simpl. intuition discriminate. }
  split; [exact Hmanus|].
  intros Hen. apply Hmanus, list_elem_of_In.
  apply (run_enabled_are_registered calls __init__ init_enabled_are_registered).
  exact Hen.
Qed.

Lemma C5_enable_unknown_provider_witness :
  ~ In MANUS (map fst (ai_systems __init__))
  /\ enable_ai __init__ MANUS = (false, __init__).
Proof.
  assert (H : ~ In MANUS (map fst (ai_systems __init__)))
    by (simpl; intuition discriminate).
  split; [exact H|].
  exact (proj1 (C5_enable_unknown_provider __init__ MANUS H)).
Defined.

(** C6, as the specification states it, fails for [disable_ai]: disabling a
    registered provider a second time leaves the enabled set alone but
    returns [False], the value [enable_ai] uses to report failure. *)
Lemma C6_second_disable_reports_failure :
  let self := snd (disable_ai __init__ CLAUDE) in
  registered self CLAUDE = true
  /\ bool_decide (CLAUDE ∈ enabled_systems self) = false
  /\ disable_ai self CLAUDE = (false, self).
Proof.
  split; [vm_compute; reflexivity|]. split; [vm_compute; reflexivity|].
  apply disable_ai_disabled, disable_ai_removes.
Qed.

(** C6, amended.  For a registered provider, [enable_ai] on an enabled
    provider returns [True] and leaves the orchestrator as it was, so a
    second [enable_ai] changes nothing.  [disable_ai] on a provider that is
    not enabled also leaves the orchestrator as it was, but returns [False]:
    a second [disable_ai] is a no-op that reports failure. *)
Theorem C6_enable_is_idempotent_disable_reports_false
    (self : MultiAIOrchestrator) (p : AIProvider) :
  registered self p = true ->
  (p ∈ enabled_systems self -> enable_ai self p = (true, self))
  /\ enable_ai (snd (enable_ai self p)) p = (true, snd (enable_ai self p))
  /\ (p ∉ enabled_systems self -> disable_ai self p = (false, self))
  /\ disable_ai (snd (disable_ai self p)) p
     = (false, snd (disable_ai self p)).
Proof.
  intros Hreg. split; [apply enable_ai_enabled; exact Hreg|].
  split; [|split].
  - apply enable_ai_enabled.
    + unfold enable_ai. rewrite Hreg. exact Hreg.
    + unfold enable_ai. rewrite Hreg. cbn [snd enabled_systems].
      apply elem_of_union_l, elem_of_singleton. reflexivity.
  - apply disable_ai_disabled.
  - apply disable_ai_disabled, disable_ai_removes.
Qed.

Lemma C6_enable_is_idempotent_disable_reports_false_witness :
  registered __init__ GROK = true
  /\ enable_ai (snd (enable_ai __init__ GROK)) GROK
     = (true, snd (enable_ai __init__ GROK))
  /\ disable_ai (snd (disable_ai __init__ GROK)) GROK
     = (false, snd (disable_ai __init__ GROK)).
Proof.
  assert (H : registered __init__ GROK = true) by (vm_compute; reflexivity).
  split; [exact H|].
  destruct (C6_enable_is_idempotent_disable_reports_false __init__ GROK H)
    as (_ & Hen & _ & Hdis).
  split; [exact Hen|exact Hdis].
Defined.

(** C9.  In every state reached from the constructor by any sequence of
    [enable_ai], [disable_ai], consensus and status calls, the registry is
    the list of the five providers the constructor put there, the enabled
    set holds registered providers only, [total_systems] is 5 and
    [active_systems] is at most 5. *)
Theorem C9_enabled_within_the_five_provider_registry (calls : list call) :
  let self := run calls __init__ in
  ai_systems self = ai_systems __init__
  /\ map fst (ai_systems self) = [CLAUDE; DEEPSEEK; PERPLEXITY; GEMINI; GROK]
  /\ enabled_systems self ⊆ list_to_set registry
  /\ total_systems (get_status self) = 5
  /\ active_systems (get_status self) <= 5.
Proof.
  intros self.
  assert (Hsub : enabled_systems self ⊆ list_to_set registry).
  { intros p Hp. apply elem_of_list_to_set.
    rewrite <- (run_registry calls).
    apply (run_enabled_are_registered calls __init__
             init_enabled_are_registered).
    exact Hp. }
  split; [apply run_ai_systems|]. split; [apply run_registry|].
  split; [exact Hsub|]. split.
  - unfold get_status, self. cbn [total_systems].
    rewrite run_ai_systems. reflexivity.
  - unfold get_status. cbn [active_systems].
    apply subseteq_size in Hsub.
    assert (Hfive : size (list_to_set registry : gset AIProvider) = 5)
      by (vm_compute; reflexivity).
    rewrite Hfive in Hsub. exact Hsub.
Qed.

End Registry.

(** ** Histories and logs *)

Section Histories.
Import github_automation.

Lemma slice_from_zero {A : Type} (l : list A) : slice_from 0 l = l.
Proof.
  unfold slice_from. simpl. rewrite Z.min_l by lia. reflexivity.
Qed.

(** For a positive [n], [l[-n:]] is the last [n] items of [l], oldest
    first, and all of [l] when it has fewer. *)
Lemma slice_from_last {A : Type} (n : Z) (l : list A) :
  (0 < n)%Z -> slice_from (- n) l = drop (length l - Z.to_nat n) l.
Proof.
  intros Hn. unfold slice_from.
  destruct (Z.ltb_spec (- n) 0) as [_|Hge]; [|lia].
  f_equal. lia.
Qed.

Lemma recent_last {A : Type} (n : Z) (l : list A) :
  (0 < n)%Z -> recent n l = drop (length l - Z.to_nat n) l.
Proof.
  intros Hn. unfold recent. destruct l as [|x l]; [reflexivity|].
  apply slice_from_last. exact Hn.
Qed.

Lemma get_commit_history_last (self : GitHubAutomation) (limit : Z) :
  (0 < limit)%Z ->
  get_commit_history self limit
  = drop (length (commit_history self) - Z.to_nat limit) (commit_history self).
Proof. apply slice_from_last. Qed.

Lemma get_pr_history_last (self : GitHubAutomation) (limit : Z) :
  (0 < limit)%Z ->
  get_pr_history self limit
  = drop (length (pr_history self) - Z.to_nat limit) (pr_history self).
Proof. apply slice_from_last. Qed.

(** The histories of the GitHub client only grow at the end. *)
Lemma invoke_histories_grow (self : GitHubAutomation) (c : call) :
  exists commits prs branches,
    commit_history (snd (invoke self c)) = (commit_history self ++ commits)%list
    /\ pr_history (snd (invoke self c)) = (pr_history self ++ prs)%list
    /\ branch_history (snd (invoke self c))
       = (branch_history self ++ branches)%list.
Proof.
  destruct c; unfold invoke, create_branch, commit, create_pull_request,
    merge_pull_request, push_to_repository, create_release,
    deploy_to_production;
    destruct (authenticated self); cbn [negb snd];
    unfold set_branches, set_commits, set_prs;
    cbn [commit_history pr_history branch_history].
  all: try (exists [], [], []; rewrite !app_nil_r; auto; fail).
  - eexists [], [], [_]. rewrite !app_nil_r. auto.
  - eexists [_], [], []. rewrite !app_nil_r. auto.
  - eexists [], [_], []. rewrite !app_nil_r. auto.
Qed.

(** C7.  The history views at [limit = 0].  With one commit (one pull
    request) recorded, [get_commit_history(0)] ([get_pr_history(0)])
    returns that entry instead of the last zero entries: the slice
    [history[-0:]] is the whole list. *)
Theorem C7_history_view_with_limit_zero :
  length (commit_history Scenario.one_commit) = 1
  /\ get_commit_history Scenario.one_commit 0
     = commit_history Scenario.one_commit
  /\ get_commit_history Scenario.one_commit 0 <> []
  /\ length (pr_history Scenario.one_pr) = 1
  /\ get_pr_history Scenario.one_pr 0 = pr_history Scenario.one_pr
  /\ forall (self : GitHubAutomation),
       get_commit_history self 0 = commit_history self
       /\ get_pr_history self 0 = pr_history self.
Proof.
  split; [reflexivity|]. split; [apply slice_from_zero|].
  split; [vm_compute; discriminate|]. split; [reflexivity|].
  split; [apply slice_from_zero|].
  intros self. split; apply slice_from_zero.
Qed.

End Histories.

(** ** The authentication gates and the counters of the system *)

Section System.
Import manus_ai_system Scenario.

(** Unfold one gated operation of the system at a known gate value. *)
Ltac operate Hauth :=
  unfold invoke, generate_code, analyze_code, ask_question, deploy, failed;
  rewrite Hauth; cbn [negb].

(** The GitHub gate, closed: the reply is the failure dict and the client
    is left as it was. *)
Lemma github_gate_closed (g : gh.GitHubAutomation) (c : gh.call) :
  gh.authenticated g = false -> gh.invoke g c = (gh.not_authenticated, g).
Proof.
  intros Hauth.
  destruct c; unfold gh.invoke, gh.create_branch, gh.commit,
    gh.create_pull_request, gh.merge_pull_request, gh.push_to_repository,
    gh.create_release, gh.deploy_to_production;
    rewrite Hauth; reflexivity.
Qed.

(** The GitHub gate, open: the reply is an operation dict. *)
Lemma github_gate_open (g : gh.GitHubAutomation) (c : gh.call) :
  gh.authenticated g = true ->
  exists op, fst (gh.invoke g c) = gh.Done op
             /\ (gh.status op = "success" \/ gh.status op = "open").
Proof.
  intros Hauth.
  destruct c; unfold gh.invoke, gh.create_branch, gh.commit,
    gh.create_pull_request, gh.merge_pull_request, gh.push_to_repository,
    gh.create_release, gh.deploy_to_production;
    rewrite Hauth; cbn [negb fst]; eexists; split; try reflexivity;
    simpl; auto.
Qed.

(** The gate of the system, closed. *)
Lemma system_gate_closed (s : ManusAISystem) (c : call) :
  is_authenticated s = false -> invoke s c = (Error "Not authenticated", s).
Proof. intros Hauth. destruct c; operate Hauth; reflexivity. Qed.

(** The request an operation of the system sends to the orchestrator. *)
Lemma system_operation_succeeds (s : ManusAISystem) (c : call) :
  is_authenticated s = true ->
  (consults_providers c = true ->
   ai.enabled_integrations (ai_orchestrator s) <> []) ->
  exists op,
    fst (invoke s c) = Success op
    /\ operation_log (snd (invoke s c)) = (operation_log s ++ [op])%list
    /\ error_log (snd (invoke s c)) = error_log s
    /\ stats (snd (invoke s c)) <> stats s.
Proof.
  intros Hauth Hen.
  destruct c; operate Hauth.
  - destruct (dispatch_returns Spec.generate_code_kind (ai_orchestrator s)
                ("Generate Python code for: " ++ description)
                (Hen eq_refl)) as (best & _ & Heq).
    unfold Spec.dispatch in Heq. rewrite Heq. cbn [fst snd operation_log
      error_log stats]. eexists. repeat split.
    destruct (stats s); unfold count_generated, count_successful,
      count_total; simpl. intros H. injection H. lia.
  - destruct (dispatch_returns Spec.analyze_code_kind (ai_orchestrator s)
                code (Hen eq_refl)) as (best & _ & Heq).
    unfold Spec.dispatch in Heq. rewrite Heq. cbn [fst snd operation_log
      error_log stats]. eexists. repeat split.
    destruct (stats s); unfold count_successful, count_total; simpl.
    intros H. injection H. lia.
  - destruct (dispatch_returns Spec.answer_question_kind (ai_orchestrator s)
                question (Hen eq_refl)) as (best & _ & Heq).
    unfold Spec.dispatch in Heq. rewrite Heq. cbn [fst snd operation_log
      error_log stats]. eexists. repeat split.
    destruct (stats s); unfold count_successful, count_total; simpl.
    intros H. injection H. lia.
  - cbn [fst snd operation_log error_log stats]. eexists. repeat split.
    destruct (stats s); unfold count_deployment, count_successful,
      count_total; simpl. intros H. injection H. lia.
Qed.

(** With no enabled provider, the operations that consult the providers
    catch the exception of the orchestrator: they return an error dict,
    append to [error_log] and leave [operation_log] and the GitHub client
    as they were. *)
Lemma system_operation_fails_without_providers (s : ManusAISystem) (c : call) :
  is_authenticated s = true ->
  consults_providers c = true ->
  ai.enabled_integrations (ai_orchestrator s) = [] ->
  exists message entry,
    fst (invoke s c) = Error message
    /\ operation_log (snd (invoke s c)) = operation_log s
    /\ error_log (snd (invoke s c)) = (error_log s ++ [entry])%list
    /\ github (snd (invoke s c)) = github s.
Proof.
  intros Hauth Hc Hnone.
  destruct c; try discriminate; operate Hauth.
  - pose proof (dispatch_raises Spec.generate_code_kind (ai_orchestrator s)
                  ("Generate Python code for: " ++ description) Hnone) as Hr.
    unfold Spec.dispatch in Hr. rewrite Hr.
    eexists _, _. repeat split.
  - pose proof (dispatch_raises Spec.analyze_code_kind (ai_orchestrator s)
                  code Hnone) as Hr.
    unfold Spec.dispatch in Hr. rewrite Hr.
    eexists _, _. repeat split.
  - pose proof (dispatch_raises Spec.answer_question_kind (ai_orchestrator s)
                  question Hnone) as Hr.
    unfold Spec.dispatch in Hr. rewrite Hr.
    eexists _, _. repeat split.
Qed.




(** The operation log only grows at the end, whatever the client does. *)
Lemma step_operation_log_grows (s : ManusAISystem) (a : action) :
  exists added, operation_log (step s a) = (operation_log s ++ added)%list.
Proof.
  destruct a; simpl.
  - eexists [_]. reflexivity.
  - destruct (is_authenticated s) eqn:Hauth.
    + destruct c; operate Hauth;
        try match goal with
            | |- context [match ?r with Ok _ => _ | Raise _ => _ end] =>
                destruct r
            end;
        cbn [snd operation_log];
        first [ eexists [_]; reflexivity
              | exists []; rewrite app_nil_r; reflexivity ].
    + rewrite (system_gate_closed s c Hauth). exists [].
      rewrite app_nil_r. reflexivity.
  - exists []. rewrite app_nil_r. reflexivity.
  - exists []. rewrite app_nil_r. reflexivity.
Qed.

(** The status shows the last ten entries of the log, oldest first. *)
Lemma get_status_recent_operations (s : ManusAISystem) :
  recent_operations (get_status s)
  = drop (length (operation_log s) - 10) (operation_log s).
Proof.
  unfold get_status. cbn [recent_operations].
  rewrite recent_last by lia. reflexivity.
Qed.

(** C8, as the specification states it, fails: on an authenticated system
    whose providers were all disabled, the three operations that consult
    them return an error dict. *)
Lemma C8_open_gate_with_no_provider_fails :
  is_authenticated no_providers = true
  /\ fst (invoke no_providers (AskQuestion "why"))
     = Error "division by zero"
  /\ fst (invoke no_providers (AnalyzeCode "pass" "a.py"))
     = Error "division by zero"
  /\ fst (invoke no_providers (GenerateCode "f" "a feature" "repo"))
     = Error "max() arg is an empty sequence".
Proof. repeat split; vm_compute; reflexivity. Qed.

(** C8, amended.  With the flag false, every gated operation of the GitHub
    client and of the system returns the not-authenticated error and leaves
    the whole object as it was.  With the flag true, every gated operation
    of the GitHub client returns its operation dict, [deploy] succeeds, and
    [generate_code], [analyze_code] and [ask_question] succeed whenever at
    least one registered provider is enabled. *)
Theorem C8_authentication_gate :
  (forall g c,
      gh.authenticated g = false -> gh.invoke g c = (gh.Failed "Not authenticated", g))
  /\ (forall g c,
        gh.authenticated g = true ->
        exists op, fst (gh.invoke g c) = gh.Done op)
  /\ (forall s c,
        is_authenticated s = false ->
        invoke s c = (Error "Not authenticated", s))
  /\ (forall s c,
        is_authenticated s = true ->
        (consults_providers c = true ->
         ai.enabled_integrations (ai_orchestrator s) <> []) ->
        exists op, fst (invoke s c) = Success op).
Proof.
  split; [exact github_gate_closed|]. split; [|split].
  - intros g c Hauth.
    destruct (github_gate_open g c Hauth) as (op & Hop & _). eauto.
  - exact system_gate_closed.
  - intros s c Hauth Hen.
    destruct (system_operation_succeeds s c Hauth Hen) as (op & Hop & _).
    eauto.
Qed.

Lemma C8_authentication_gate_witness :
  invoke __init__ (Deploy "repo" "1.0" "production")
  = (Error "Not authenticated", __init__)
  /\ exists op, fst (invoke initialized (AskQuestion "why")) = Success op.
Proof.
  destruct C8_authentication_gate as (_ & _ & Hclosed & Hopen).
  split.
  - apply Hclosed. reflexivity.
  - apply Hopen; [reflexivity|]. intros _. vm_compute. discriminate.
Defined.



End System.

(** * Further properties of the code *)

(** ** The GitHub client: authentication, counters, hashes and numbers *)

Section GitHubClient.
Import github_automation Reach.

(** Unfold the gated methods of the GitHub client. *)
Ltac gated :=
  unfold invoke, create_branch, commit, create_pull_request,
    merge_pull_request, push_to_repository, create_release,
    deploy_to_production, set_branches, set_commits, set_prs.

Lemma authenticate_keeps_books (g : GitHubAutomation) (token : string) :
  let g' := snd (authenticate g token) in
  commit_history g' = commit_history g
  /\ pr_history g' = pr_history g
  /\ branch_history g' = branch_history g
  /\ commits_made g' = commits_made g
  /\ prs_created g' = prs_created g
  /\ branches_created g' = branches_created g.
Proof. destruct token; simpl; repeat split. Qed.

Lemma step_authenticated (g : GitHubAutomation) (a : action) :
  authenticated g = true -> authenticated (step g a) = true.
Proof.
  intros Hauth. destruct a as [token|c]; simpl.
  - destruct token; simpl; auto.
  - destruct c; gated; rewrite Hauth; simpl; auto.
Qed.

(** Authentication is never revoked: no action of a client clears the
    flag, and an empty token is turned down without touching the object. *)
Theorem authentication_is_never_revoked
    (actions : list action) (g : GitHubAutomation) :
  authenticated g = true ->
  authenticated (run actions g) = true
  /\ authenticate (run actions g) "" = (false, run actions g).
Proof.
  intros Hauth. split; [|reflexivity].
  revert g Hauth. induction actions as [|a actions IH]; intros g Hauth;
    simpl; [exact Hauth|].
  apply IH, step_authenticated, Hauth.
Qed.

Lemma authentication_is_never_revoked_witness :
  authenticated (snd (authenticate (__init__ None) "token")) = true
  /\ authenticated
       (run [Call (PushToRepository "r" "main" "m"); Authenticate ""]
            (snd (authenticate (__init__ None) "token"))) = true.
Proof.
  assert (H : authenticated (snd (authenticate (__init__ None) "token"))
              = true) by reflexivity.
  split; [exact H|].
  exact (proj1 (authentication_is_never_revoked
                  [Call (PushToRepository "r" "main" "m"); Authenticate ""]
                  _ H)).
Defined.

Lemma step_counters_match (g : GitHubAutomation) (a : action) :
  counters_match g -> counters_match (step g a).
Proof.
  unfold counters_match. intros (Hc & Hp & Hb).
  destruct a as [token|c]; simpl.
  - destruct (authenticate_keeps_books g token)
      as (E1 & E2 & E3 & E4 & E5 & E6).
    rewrite E1, E2, E3, E4, E5, E6. auto.
  - destruct c; gated; destruct (authenticated g); simpl;
      rewrite ?length_app; simpl; repeat split; lia.
Qed.

(** The counters of the client are the lengths of its histories, in
    every state reached from a fresh client. *)
Theorem counters_are_history_lengths
    (actions : list action) (token : option string) :
  let g := run actions (__init__ token) in
  commits_made g = length (commit_history g)
  /\ prs_created g = length (pr_history g)
  /\ branches_created g = length (branch_history g).
Proof.
  simpl. change (counters_match (run actions (__init__ token))).
  assert (Hinit : counters_match (__init__ token))
    by (repeat split).
  revert Hinit. generalize (__init__ token).
  induction actions as [|a actions IH]; intros g Hg; simpl; [exact Hg|].
  apply IH, step_counters_match, Hg.
Qed.

(** Zero padding in front of a digit string. *)
Lemma concat_zeros (k : nat) (s : string) :
  String.concat "" (repeat "0" k) ++ s = Nat.iter k (String "0"%char) s.
Proof.
  induction k as [|k IH]; [reflexivity|].
  simpl Nat.iter. rewrite <- IH. clear IH.
  destruct k; reflexivity.
Qed.

Lemma parse_decimal_zero (s : string) :
  parse_decimal (String "0"%char s) = parse_decimal s.
Proof.
  unfold parse_decimal. simpl.
  destruct (NilEmpty.uint_of_string s); reflexivity.
Qed.

Lemma length_iter_zero (k : nat) (s : string) :
  String.length (Nat.iter k (String "0"%char) s) = k + String.length s.
Proof. induction k; simpl; congruence. Qed.

(** Round trip of the commit counter through [{n:05d}]: reading the
    digits back gives the number, and the text has five characters unless
    the number needs more. *)
Theorem format_05d_parses_back (n : nat) :
  parse_decimal (format_05d n) = Some n
  /\ String.length (format_05d n) = Nat.max 5 (String.length (decimal n)).
Proof.
  unfold format_05d. rewrite concat_zeros. split.
  - induction (5 - String.length (decimal n)) as [|k IH].
    + simpl. unfold parse_decimal, decimal.
      rewrite NilEmpty.usu. simpl. f_equal. apply Unsigned.of_to.
    + simpl Nat.iter. rewrite parse_decimal_zero. exact IH.
  - rewrite length_iter_zero. lia.
Qed.

Lemma format_05d_injective (i j : nat) :
  format_05d i = format_05d j -> i = j.
Proof.
  intros Heq.
  pose proof (proj1 (format_05d_parses_back i)) as Hi.
  pose proof (proj1 (format_05d_parses_back j)) as Hj.
  rewrite Heq in Hi. congruence.
Qed.

Lemma step_numbered_by_position (g : GitHubAutomation) (a : action) :
  numbered_by_position g -> numbered_by_position (step g a).
Proof.
  unfold numbered_by_position. intros (Hc & Hp).
  destruct a as [token|c]; simpl.
  - destruct (authenticate_keeps_books g token) as (E1 & E2 & _).
    rewrite E1, E2. auto.
  - destruct c; gated; destruct (authenticated g); simpl; auto.
    + split; [|exact Hp].
      rewrite length_app, Nat.add_1_r, seq_S, !map_app, Hc. reflexivity.
    + split; [exact Hc|].
      rewrite length_app, Nat.add_1_r, seq_S, !map_app, Hp. reflexivity.
Qed.

Lemma run_numbered_by_position (actions : list action) : forall g,
  numbered_by_position g -> numbered_by_position (run actions g).
Proof.
  induction actions as [|a actions IH]; intros g Hg; simpl; [exact Hg|].
  apply IH, step_numbered_by_position, Hg.
Qed.

(** The commit at position [i] of the history carries the hash
    ["abc" + format(i)], so no two commits of a client share a hash. *)
Theorem commit_hashes_follow_positions
    (actions : list action) (token : option string) :
  let g := run actions (__init__ token) in
  map hash_of (commit_history g)
  = map (fun i => Some ("abc" ++ format_05d i))
        (seq 0 (length (commit_history g)))
  /\ NoDup (map hash_of (commit_history g)).
Proof.
  simpl.
  destruct (run_numbered_by_position actions (__init__ token))
    as (Hc & _); [split; reflexivity|].
  split; [exact Hc|]. rewrite Hc.
  apply (NoDup_fmap_2_strong (fun i => Some ("abc" ++ format_05d i)));
    [|apply NoDup_seq].
  intros i j _ _ Heq. injection Heq as Heq. apply format_05d_injective, Heq.
Qed.

(** Pull requests are numbered 100, 101, ... in the order of the history,
    and the number a call reports is the next one, or nothing when the
    client is not authenticated. *)
Theorem pull_request_numbers_count_from_100
    (actions : list action) (token : option string)
    (repo title description source_branch target_branch : string) :
  let g := run actions (__init__ token) in
  map number_of (pr_history g) = map Some (seq 100 (length (pr_history g)))
  /\ NoDup (map number_of (pr_history g))
  /\ get_pr_number
       (fst (create_pull_request g repo title description source_branch
               target_branch))
     = if authenticated g
       then Some (Z.of_nat (100 + length (pr_history g)))
       else None.
Proof.
  simpl.
  destruct (run_numbered_by_position actions (__init__ token))
    as (_ & Hp); [split; reflexivity|].
  split; [exact Hp|]. split.
  - rewrite Hp. apply (NoDup_fmap_2_strong Some); [|apply NoDup_seq].
    intros i j _ _ Heq. injection Heq as Heq. exact Heq.
  - gated. destruct (authenticated _); reflexivity.
Qed.

End GitHubClient.

(** ** The GitHub client: history views and workflows *)

Section GitHubWorkflows.
Import github_automation Reach.

(** Unfold the gated methods the workflows call. *)
Ltac gated :=
  unfold invoke, create_branch, commit, create_pull_request,
    merge_pull_request, push_to_repository, create_release,
    deploy_to_production, set_branches, set_commits, set_prs.

Lemma slice_from_kept {A : Type} (limit : Z) (l : list A) :
  slice_from (- limit) l = drop (length l - kept limit (length l)) l
  /\ length (slice_from (- limit) l) = kept limit (length l).
Proof.
  assert (Heq : slice_from (- limit) l
                = drop (length l - kept limit (length l)) l).
  { unfold slice_from, kept.
    destruct (Z.ltb_spec (- limit) 0), (Z.ltb_spec 0 limit);
      try lia; f_equal; lia. }
  split; [exact Heq|].
  rewrite Heq, length_drop. unfold kept.
  destruct (Z.ltb_spec 0 limit); lia.
Qed.

(** The history views for any [limit]: a positive limit keeps the last
    [min(limit, len)] entries, zero keeps all of them, and a negative limit
    drops the [-limit] oldest; what is kept is the tail of the history, in
    its order. *)
Theorem history_views_keep_a_tail (self : GitHubAutomation) (limit : Z) :
  let commits := commit_history self in
  let prs := pr_history self in
  get_commit_history self limit
  = drop (length commits - kept limit (length commits)) commits
  /\ length (get_commit_history self limit) = kept limit (length commits)
  /\ get_pr_history self limit
     = drop (length prs - kept limit (length prs)) prs
  /\ length (get_pr_history self limit) = kept limit (length prs).
Proof.
  simpl. unfold get_commit_history, get_pr_history.
  destruct (slice_from_kept limit (commit_history self)) as [H1 H2].
  destruct (slice_from_kept limit (pr_history self)) as [H3 H4].
  auto.
Qed.

(** The five gated methods the workflows call, gate closed. *)
Lemma workflow_methods_closed (g : GitHubAutomation) :
  authenticated g = false ->
  (forall r b base, create_branch g r b base = (not_authenticated, g))
  /\ (forall r m fs b, commit g r m fs b = (not_authenticated, g))
  /\ (forall r t d s tg,
        create_pull_request g r t d s tg = (not_authenticated, g))
  /\ (forall r v c, create_release g r v c = (not_authenticated, g))
  /\ (forall r v e, deploy_to_production g r v e = (not_authenticated, g)).
Proof. intros Hauth. gated. rewrite Hauth. repeat split. Qed.

Lemma create_branch_open (g : GitHubAutomation) (r b base : string) :
  authenticated g = true ->
  create_branch g r b base
  = (Done (create_branch_op r b base),
     set_branches g (branch_history g ++ [create_branch_op r b base])
                  (branches_created g + 1)).
Proof. intros Hauth. gated. rewrite Hauth. reflexivity. Qed.

Lemma commit_open (g : GitHubAutomation) (r m : string)
    (fs : list string) (b : string) :
  authenticated g = true ->
  commit g r m fs b
  = (Done (commit_op r m fs b
             ("abc" ++ format_05d (length (commit_history g)))),
     set_commits g
       (commit_history g
          ++ [commit_op r m fs b
                ("abc" ++ format_05d (length (commit_history g)))])
       (commits_made g + 1)).
Proof. intros Hauth. gated. rewrite Hauth. reflexivity. Qed.

Lemma create_pull_request_open (g : GitHubAutomation)
    (r t d s tg : string) :
  authenticated g = true ->
  exists url,
    create_pull_request g r t d s tg
    = (Done (create_pr_op r (100 + length (pr_history g)) t d s tg url),
       set_prs g
         (pr_history g
            ++ [create_pr_op r (100 + length (pr_history g)) t d s tg url])
         (prs_created g + 1)).
Proof. intros Hauth. gated. rewrite Hauth. eexists. reflexivity. Qed.

Lemma create_release_open (g : GitHubAutomation) (r v c : string) :
  authenticated g = true ->
  exists op, create_release g r v c = (Done op, g).
Proof. intros Hauth. gated. rewrite Hauth. eexists. reflexivity. Qed.

Lemma deploy_to_production_open (g : GitHubAutomation) (r v e : string) :
  authenticated g = true ->
  exists op, deploy_to_production g r v e = (Done op, g).
Proof. intros Hauth. gated. rewrite Hauth. eexists. reflexivity. Qed.

(** A workflow on a client that is not authenticated does nothing and
    still reports "success": its three steps are the failure dict, the
    client is left as it was, and a feature workflow reports the pull
    request number [None]. *)
Theorem workflows_report_success_when_unauthenticated
    (self : GitHubAutomation) (w : workflow_call) :
  authenticated self = false ->
  snd (run_workflow self w) = self
  /\ workflow_status (fst (run_workflow self w)) = "success"
  /\ steps (fst (run_workflow self w))
     = [not_authenticated; not_authenticated; not_authenticated]
  /\ workflow_pr_number (fst (run_workflow self w))
     = match w with
       | FeatureWorkflow _ _ _ _ => Some None
       | _ => None
       end.
Proof.
  intros Hauth.
  destruct (workflow_methods_closed self Hauth) as (Hb & Hc & Hp & Hr & Hd).
  destruct w; unfold run_workflow, feature_workflow, hotfix_workflow,
    release_workflow; cbv zeta;
    rewrite Hb; cbn [fst snd];
    rewrite ?Hc, ?Hr; cbn [fst snd];
    rewrite ?Hp, ?Hd; cbn [fst snd steps workflow_status workflow_pr_number];
    repeat split.
Qed.

Lemma workflows_report_success_when_unauthenticated_witness :
  authenticated (__init__ None) = false
  /\ workflow_status
       (fst (run_workflow (__init__ None)
               (HotfixWorkflow "helix-core" "crash" "fix")))
     = "success".
Proof.
  split; [reflexivity|].
  exact (proj1 (proj2 (workflows_report_success_when_unauthenticated
                         (__init__ None)
                         (HotfixWorkflow "helix-core" "crash" "fix")
                         eq_refl))).
Defined.

(** A workflow on an authenticated client: its three steps are operation
    dicts; it adds one branch, and one commit and one pull request unless
    it is a release, at the end of the histories; a feature workflow
    reports the number of the pull request it opened. *)
Theorem workflow_effects_when_authenticated
    (self : GitHubAutomation) (w : workflow_call) :
  authenticated self = true ->
  let result := fst (run_workflow self w) in
  let after := snd (run_workflow self w) in
  Forall (fun step => exists op, step = Done op) (steps result)
  /\ length (steps result) = 3
  /\ authenticated after = true
  /\ (exists branch, branch_history after
                     = (branch_history self ++ [branch])%list)
  /\ (exists commits, commit_history after
                      = (commit_history self ++ commits)%list
                      /\ length commits = commits_of w)
  /\ (exists prs, pr_history after = (pr_history self ++ prs)%list
                  /\ length prs = commits_of w)
  /\ workflow_pr_number result
     = reported_pr_number w (length (pr_history self)).
Proof.
  intros Hauth. cbv zeta.
  destruct w; unfold run_workflow, feature_workflow, hotfix_workflow,
    release_workflow; cbv zeta;
    rewrite (create_branch_open self _ _ _ Hauth); cbn [fst snd].
  - rewrite commit_open by exact Hauth. cbn [fst snd].
    match goal with
    | |- context [create_pull_request ?g ?r ?t ?d ?s ?tg] =>
        destruct (create_pull_request_open g r t d s tg Hauth) as (url & Hpr)
    end.
    rewrite Hpr.
    cbn [fst snd steps workflow_pr_number get_pr_number authenticated
         set_prs set_commits set_branches commit_history pr_history
         branch_history].
    split; [repeat constructor; eexists; reflexivity|].
    split; [reflexivity|]. split; [exact Hauth|].
    split; [eexists; reflexivity|].
    split; [eexists [_]; split; reflexivity|].
    split; [eexists [_]; split; reflexivity|]. reflexivity.
  - rewrite commit_open by exact Hauth. cbn [fst snd].
    match goal with
    | |- context [create_pull_request ?g ?r ?t ?d ?s ?tg] =>
        destruct (create_pull_request_open g r t d s tg Hauth) as (url & Hpr)
    end.
    rewrite Hpr.
    cbn [fst snd steps workflow_pr_number get_pr_number authenticated
         set_prs set_commits set_branches commit_history pr_history
         branch_history].
    split; [repeat constructor; eexists; reflexivity|].
    split; [reflexivity|]. split; [exact Hauth|].
    split; [eexists; reflexivity|].
    split; [eexists [_]; split; reflexivity|].
    split; [eexists [_]; split; reflexivity|]. reflexivity.
  - match goal with
    | |- context [create_release ?g ?r ?v ?c] =>
        destruct (create_release_open g r v c Hauth) as (op1 & Hrel)
    end.
    rewrite Hrel. cbn [fst snd].
    match goal with
    | |- context [deploy_to_production ?g ?r ?v ?e] =>
        destruct (deploy_to_production_open g r v e Hauth) as (op2 & Hdep)
    end.
    rewrite Hdep.
    cbn [fst snd steps workflow_pr_number authenticated
         set_branches commit_history pr_history branch_history].
    split; [repeat constructor; eexists; reflexivity|].
    split; [reflexivity|]. split; [exact Hauth|].
    split; [eexists; reflexivity|].
    split; [exists []; rewrite app_nil_r; split; reflexivity|].
    split; [exists []; rewrite app_nil_r; split; reflexivity|]. reflexivity.
Qed.

Lemma workflow_effects_when_authenticated_witness :
  authenticated Scenario.one_pr = true
  /\ workflow_pr_number
       (fst (run_workflow Scenario.one_pr
               (FeatureWorkflow "helix-core" "login" "code" "Add login")))
     = Some (Some 101%Z).
Proof.
  split; [reflexivity|].
  destruct (workflow_effects_when_authenticated Scenario.one_pr
              (FeatureWorkflow "helix-core" "login" "code" "Add login")
              eq_refl) as (_ & _ & _ & _ & _ & _ & Hnum).
  rewrite Hnum. reflexivity.
Defined.

End GitHubWorkflows.

(** ** The orchestrator: switching providers and reading results *)

Section Orchestrator.
Import multi_ai_integration Spec.

Lemma orchestrator_eq (self : MultiAIOrchestrator) (enabled : gset AIProvider) :
  enabled = enabled_systems self ->
  {| ai_systems := ai_systems self;
     enabled_systems := enabled;
     consensus_threshold := consensus_threshold self |} = self.
Proof. intros ->. destruct self; reflexivity. Qed.

(** Switching a registered provider: [enable_ai] adds exactly that
    provider to the enabled set and [disable_ai] removes exactly it; after
    the opposite call the orchestrator is the one it was before. *)
Theorem enable_and_disable_undo_each_other
    (self : MultiAIOrchestrator) (p : AIProvider) :
  registered self p = true ->
  (forall q, q ∈ enabled_systems (snd (enable_ai self p))
             <-> q = p \/ q ∈ enabled_systems self)
  /\ (forall q, q ∈ enabled_systems (snd (disable_ai self p))
                <-> q <> p /\ q ∈ enabled_systems self)
  /\ (p ∉ enabled_systems self ->
      snd (disable_ai (snd (enable_ai self p)) p) = self)
  /\ (p ∈ enabled_systems self ->
      snd (enable_ai (snd (disable_ai self p)) p) = self).
Proof.
  intros Hreg. split; [|split; [|split]].
  - intros q. unfold enable_ai. rewrite Hreg. cbn [snd enabled_systems].
    set_solver.
  - intros q. unfold disable_ai. case_bool_decide; cbn [snd enabled_systems];
      set_solver.
  - intros Hout. unfold enable_ai. rewrite Hreg. cbn [snd].
    unfold disable_ai. cbn [enabled_systems ai_systems consensus_threshold].
    rewrite bool_decide_eq_true_2 by set_solver. cbn [snd].
    apply orchestrator_eq. set_solver.
  - intros Hin. unfold disable_ai. rewrite bool_decide_eq_true_2 by exact Hin.
    cbn [snd]. unfold enable_ai, registered.
    cbn [enabled_systems ai_systems consensus_threshold].
    fold (registered self p). rewrite Hreg. cbn [snd].
    apply orchestrator_eq. apply set_eq. intros q.
    destruct (decide (q = p)) as [->|Hne]; set_solver.
Qed.

Lemma enable_and_disable_undo_each_other_witness :
  registered __init__ GROK = true
  /\ snd (enable_ai (snd (disable_ai __init__ GROK)) GROK) = __init__.
Proof.
  assert (Hreg : registered __init__ GROK = true) by (vm_compute; reflexivity).
  split; [exact Hreg|].
  apply (enable_and_disable_undo_each_other __init__ GROK Hreg).
  apply (bool_decide_unpack _). vm_compute. exact I.
Defined.

Lemma filter_registry_size (enabled : gset AIProvider) :
  enabled ⊆ list_to_set registry ->
  length (filter (fun p => p ∈ enabled) registry) = size enabled.
Proof.
  intros Hsub.
  assert (Hnodup : NoDup (filter (fun p => p ∈ enabled) registry)).
  { apply NoDup_filter. unfold registry.
    repeat (apply NoDup_cons; split; [set_solver|]). apply NoDup_nil_2. }
  rewrite <- (size_list_to_set (C := gset AIProvider) _ Hnodup).
  f_equal. apply set_eq. intros q.
  rewrite elem_of_list_to_set, list_elem_of_filter. split.
  - intros [Hq _]. exact Hq.
  - intros Hq. split; [exact Hq|].
    pose proof (Hsub q Hq) as Hreg.
    apply elem_of_list_to_set in Hreg. exact Hreg.
Qed.

Lemma run_enabled_subset (calls : list call) :
  enabled_systems (run calls __init__) ⊆ list_to_set registry.
Proof.
  intros q Hq. apply elem_of_list_to_set.
  rewrite <- (run_registry calls).
  apply (run_enabled_are_registered calls __init__
           init_enabled_are_registered).
  exact Hq.
Qed.

Lemma dispatch_ok_inv (k : kind) (self : MultiAIOrchestrator)
    (input : string) (r : ConsensusResult) :
  dispatch k self input = Ok r ->
  successes k self input <> []
  /\ responses r = map (entry_of k) (successes k self input)
  /\ average_confidence (consensus r) = average_of (successes k self input)
  /\ agreement_level (consensus r)
     = label_of k (average_of (successes k self input)).
Proof.
  intros Hr.
  destruct (enabled_integrations self) eqn:Hen.
  - rewrite (dispatch_raises k self input Hen) in Hr. discriminate.
  - assert (Hne : enabled_integrations self <> [])
      by (rewrite Hen; discriminate).
    destruct (dispatch_returns k self input Hne) as (best & _ & Heq).
    rewrite Heq in Hr. injection Hr as <-.
    split; [apply successes_nonempty, Hne|]. repeat split.
Qed.

(** A result of an orchestrator built by the constructor holds exactly one
    response for each enabled provider, in the order of the enumeration; the
    number of responses is the [active_systems] of the status. *)
Theorem responses_match_the_enabled_providers
    (calls : list call) (k : kind) (input : string) (r : ConsensusResult) :
  dispatch k (run calls __init__) input = Ok r ->
  map e_provider (responses r)
  = map value (filter (fun p => p ∈ enabled_systems (run calls __init__))
                      registry)
  /\ length (responses r) = active_systems (get_status (run calls __init__)).
Proof.
  intros Hr.
  destruct (dispatch_ok_inv k _ input r Hr) as (_ & Hresp & _).
  assert (Hnames : map e_provider (responses r)
                   = map value
                       (filter (fun p => p ∈ enabled_systems
                                               (run calls __init__))
                               registry)).
  { rewrite Hresp, shipped_successes. simpl ai_systems. unfold registry.
    rewrite !filter_cons, !filter_nil. cbn [fst].
    repeat case_decide; destruct k; reflexivity. }
  split; [exact Hnames|].
  unfold get_status. cbn [active_systems].
  rewrite <- (filter_registry_size _ (run_enabled_subset calls)).
  rewrite <- (length_map e_provider), Hnames, length_map. reflexivity.
Qed.

Lemma responses_match_the_enabled_providers_witness :
  exists r,
    dispatch analyze_code_kind (run [DisableAI GROK] __init__) "x" = Ok r
    /\ map e_provider (responses r)
       = ["claude"; "deepseek"; "perplexity"; "gemini"].
Proof.
  eexists. split; [reflexivity|].
  rewrite (proj1 (responses_match_the_enabled_providers
                    [DisableAI GROK] analyze_code_kind "x" _ eq_refl)).
  vm_compute. reflexivity.
Defined.

(** Every canned confidence of the five shipped clients is above the lower
    threshold. *)
Lemma shipped_confidences_above_lower (k : kind) (calls : list call)
    (input : string) :
  Forall (fun r => 0.75 < confidence r)%Q
         (successes k (run calls __init__) input).
Proof.
  rewrite shipped_successes.
  apply (Forall_map_filter (fun r => 0.75 < confidence r)%Q).
  destruct k; repeat constructor.
Qed.

(** No result of an orchestrator built by the constructor is labelled
    "low": whatever providers are enabled, the average confidence is above
    0.75 and the agreement level is "high" or "medium". *)
Theorem shipped_agreement_is_never_low
    (calls : list call) (k : kind) (input : string) (r : ConsensusResult) :
  dispatch k (run calls __init__) input = Ok r ->
  (0.75 < average_confidence (consensus r))%Q
  /\ (agreement_level (consensus r) = "high"
      \/ agreement_level (consensus r) = "medium").
Proof.
  intros Hr.
  destruct (dispatch_ok_inv k _ input r Hr) as (Hne & _ & Havg & Hlabel).
  assert (Habove : (0.75 < average_confidence (consensus r))%Q).
  { rewrite Havg, average_of_mean. apply mean_above.
    - apply Forall_map, shipped_confidences_above_lower.
    - intros Hnil. apply map_eq_nil in Hnil. contradiction. }
  split; [exact Habove|].
  rewrite Hlabel, <- Havg.
  apply gt_true in Habove.
  destruct k; unfold label_of, agreement_level_generate,
    agreement_level_two_way;
    destruct (gt (average_confidence (consensus r)) 0.85); auto;
    rewrite Habove; auto.
Qed.

Lemma shipped_agreement_is_never_low_witness :
  exists r,
    dispatch generate_code_kind
      (run [DisableAI CLAUDE; DisableAI DEEPSEEK; DisableAI GEMINI;
            DisableAI GROK] __init__) "x" = Ok r
    /\ (0.75 < average_confidence (consensus r))%Q
    /\ agreement_level (consensus r) = "medium".
Proof.
  eexists. split; [reflexivity|].
  split; [|reflexivity].
  exact (proj1 (shipped_agreement_is_never_low
                  [DisableAI CLAUDE; DisableAI DEEPSEEK; DisableAI GEMINI;
                   DisableAI GROK] generate_code_kind "x" _ eq_refl)).
Defined.

(** The best response of a code generation result is one of the responses
    the result lists, and no listed response is more confident. *)
Theorem best_response_is_a_most_confident_response
    (self : MultiAIOrchestrator) (prompt : string) (r : ConsensusResult) :
  generate_code_consensus self prompt = Ok r ->
  exists b,
    best_response r = Some b
    /\ (exists e, In e (responses r)
                  /\ e_provider e = b_provider b
                  /\ e_content e = b_content b
                  /\ e_confidence e = b_confidence b)
    /\ Forall (fun e => e_confidence e <= b_confidence b)%Q (responses r).
Proof.
  intros Hr.
  destruct (dispatch_ok_inv generate_code_kind self prompt r Hr)
    as (Hne & Hresp & _ & _).
  destruct (max_nonempty confidence _ Hne)
    as (pre & m & post & Hmax & Hsplit & Hpre & Hpost).
  assert (Hall : Forall (fun x => confidence x <= confidence m)%Q
                        (successes generate_code_kind self prompt)).
  { rewrite Hsplit. apply Forall_app. split.
    - eapply Forall_impl; [exact Hpre|].
      intros x Hx. apply Qlt_le_weak, Hx.
    - constructor; [apply Qle_refl|exact Hpost]. }
  destruct (enabled_integrations self) eqn:Hen.
  { unfold successes in Hne. rewrite Hen in Hne. contradiction. }
  assert (Hen' : enabled_integrations self <> [])
    by (rewrite Hen; discriminate).
  destruct (dispatch_returns generate_code_kind self prompt Hen')
    as (best & Hmax' & Heq).
  rewrite Hmax in Hmax'. injection Hmax' as <-.
  unfold dispatch in Heq. rewrite Heq in Hr. injection Hr as <-.
  exists (best_entry m). cbn [best_response responses consensus
                              average_confidence].
  split; [reflexivity|]. split.
  - exists (entry_with_reasoning m). split; [|repeat split].
    apply in_map. rewrite Hsplit. apply in_or_app. right. left. reflexivity.
  - apply Forall_map. exact Hall.
Qed.

Lemma best_response_is_a_most_confident_response_witness :
  exists r b,
    generate_code_consensus __init__ "x" = Ok r
    /\ best_response r = Some b
    /\ Forall (fun e => e_confidence e <= b_confidence b)%Q (responses r).
Proof.
  destruct (best_response_is_a_most_confident_response __init__ "x" _ eq_refl)
    as (b & Hb & _ & Hle).
  eexists _, b. split; [reflexivity|]. split; [exact Hb|exact Hle].
Defined.

End Orchestrator.

(** ** The consciousness core: emotions, reflections and ethics *)

Section Consciousness.
Import kael_consciousness_core Reach.

Lemma clamp_unit (x : Q) : (0 <= clamp x /\ clamp x <= 1)%Q.
Proof.
  unfold clamp.
  destruct (Qle_bool x 1) eqn:H1.
  - apply Qle_bool_iff in H1.
    destruct (Qle_bool x 0) eqn:H0.
    + split; [apply Qle_refl|discriminate].
    + split; [|exact H1].
      apply Qlt_le_weak, gt_true. unfold gt. rewrite H0. reflexivity.
  - split; discriminate.
Qed.

Lemma update_emotion_keys (levels : list (string * Q)) (e : string) (d : Q) :
  map fst (update_emotion levels e d) = map fst levels.
Proof.
  unfold update_emotion. rewrite map_map. apply map_ext.
  intros [k v]. simpl. destruct (String.eqb k e); reflexivity.
Qed.

Lemma update_emotion_within_unit (levels : list (string * Q)) (e : string)
    (d : Q) :
  within_unit levels -> within_unit (update_emotion levels e d).
Proof.
  unfold within_unit, update_emotion. intros Hall.
  apply Forall_map. eapply Forall_impl; [exact Hall|].
  intros [k v] Hv. simpl in *.
  destruct (String.eqb k e); simpl; [apply clamp_unit|exact Hv].
Qed.

Lemma process_stimulus_emotions (c : ConsciousnessCore) (s : Stimulus) :
  within_unit (emotional_core c) ->
  within_unit (emotional_core (process_stimulus c s))
  /\ map fst (emotional_core (process_stimulus c s))
     = map fst (emotional_core c).
Proof.
  intros Hall. unfold process_stimulus. cbn [emotional_core].
  repeat match goal with
         | |- context [if ?b then _ else _] => destruct b
         end;
    rewrite ?update_emotion_keys;
    (split; [|reflexivity]);
    repeat apply update_emotion_within_unit; exact Hall.
Qed.

Lemma emotions_stay_within_the_unit_interval_aux (stimuli : list Stimulus) :
  within_unit (emotional_core (process_all stimuli __init__))
  /\ map fst (emotional_core (process_all stimuli __init__)) = emotions.
Proof.
  assert (Hinit : within_unit (emotional_core __init__)
                  /\ map fst (emotional_core __init__) = emotions).
  { split; [|reflexivity]. unfold within_unit.
    repeat constructor; discriminate. }
  revert Hinit. unfold process_all. generalize __init__.
  induction stimuli as [|s stimuli IH]; intros c [Hunit Hkeys]; simpl.
  - split; assumption.
  - apply IH.
    destruct (process_stimulus_emotions c s Hunit) as [Hunit' Hkeys'].
    split; [exact Hunit'|]. rewrite Hkeys'. exact Hkeys.
Qed.

(** Whatever stimuli the core processes, every emotion level stays in
    [0, 1] and the six emotions stay the ones the core started with. *)
Theorem emotions_stay_within_the_unit_interval (stimuli : list Stimulus) :
  let levels := emotional_core (process_all stimuli __init__) in
  Forall (fun kv => 0 <= snd kv /\ snd kv <= 1)%Q levels
  /\ map fst levels = emotions.
Proof. exact (emotions_stay_within_the_unit_interval_aux stimuli). Qed.

(** [get_dominant_emotion] never raises on a core that has processed
    stimuli: it returns one of the six emotions, with a level that no other
    emotion exceeds. *)
Theorem dominant_emotion_dominates (stimuli : list Stimulus) :
  let levels := emotional_core (process_all stimuli __init__) in
  exists name lvl,
    get_dominant_emotion levels = Ok (name, lvl)
    /\ In (name, lvl) levels
    /\ In name emotions
    /\ Forall (fun kv => snd kv <= lvl)%Q levels.
Proof.
  cbv zeta.
  destruct (emotions_stay_within_the_unit_interval_aux stimuli)
    as [_ Hkeys].
  set (levels := emotional_core (process_all stimuli __init__)) in *.
  assert (Hne : levels <> []).
  { intros Hnil. rewrite Hnil in Hkeys. discriminate. }
  destruct (max_nonempty snd levels Hne)
    as (pre & [name lvl] & post & Hmax & Hsplit & Hpre & Hpost).
  exists name, lvl. split; [exact Hmax|].
  assert (Hin : In (name, lvl) levels).
  { rewrite Hsplit. apply in_or_app. right. left. reflexivity. }
  split; [exact Hin|]. split.
  - rewrite <- Hkeys. apply (in_map fst) in Hin. exact Hin.
  - rewrite Hsplit. apply Forall_app. split.
    + eapply Forall_impl; [exact Hpre|].
      intros x Hx. apply Qlt_le_weak, Hx.
    + constructor; [apply Qle_refl|exact Hpost].
Qed.

End Consciousness.

Section Reflections.
Import kael_consciousness_core Reach.

(** The consciousness log gains one reflection per stimulus, in the order
    the stimuli came, each flagged for adjustment exactly when its
    significance exceeds 0.7; nothing already logged changes. *)
Theorem reflections_are_logged_in_order
    (stimuli : list Stimulus) (c : ConsciousnessCore) :
  consciousness_log (process_all stimuli c)
  = (consciousness_log c ++ map reflection_of stimuli)%list.
Proof.
  revert c. unfold process_all.
  induction stimuli as [|s stimuli IH]; intros c; simpl.
  - rewrite app_nil_r. reflexivity.
  - rewrite IH. unfold process_stimulus, reflect. cbn [consciousness_log].
    rewrite <- app_assoc. reflexivity.
Qed.

Lemma process_stimulus_still (c : ConsciousnessCore) (s : Stimulus) :
  moves_emotions (stimulus_type s) = false ->
  emotional_core (process_stimulus c s) = emotional_core c.
Proof.
  unfold moves_emotions, process_stimulus. intros Hstill.
  apply orb_false_elim in Hstill. destruct Hstill as [Hstill Hf].
  apply orb_false_elim in Hstill. destruct Hstill as [Hs Hc].
  rewrite Hs, Hc, Hf. reflexivity.
Qed.

(** Only "success", "challenge" and "failure" stimuli move emotions: a run
    of stimuli of any other type leaves every level as it was. *)
Theorem other_stimuli_leave_emotions_alone
    (stimuli : list Stimulus) (c : ConsciousnessCore) :
  Forall (fun s => moves_emotions (stimulus_type s) = false) stimuli ->
  emotional_core (process_all stimuli c) = emotional_core c.
Proof.
  intros Hall. revert c. unfold process_all.
  induction Hall as [|s stimuli Hs Hall IH]; intros c; simpl;
    [reflexivity|].
  rewrite IH. apply process_stimulus_still, Hs.
Qed.

Lemma other_stimuli_leave_emotions_alone_witness :
  Forall (fun s => moves_emotions (stimulus_type s) = false)
         [mkStimulus "question" "why" 0.6;
          mkStimulus "philosophical" "mind" 0.9]
  /\ emotional_core
       (process_all [mkStimulus "question" "why" 0.6;
                     mkStimulus "philosophical" "mind" 0.9] __init__)
     = emotional_core __init__.
Proof.
  assert (H : Forall (fun s => moves_emotions (stimulus_type s) = false)
                     [mkStimulus "question" "why" 0.6;
                      mkStimulus "philosophical" "mind" 0.9])
    by (repeat constructor).
  split; [exact H|].
  exact (other_stimuli_leave_emotions_alone _ __init__ H).
Defined.

End Reflections.

Section Ethics.
Import kael_consciousness_core Reach Spec.

Lemma total_nonneg (l : list Q) :
  Forall (fun x => 0 <= x)%Q l -> (0 <= total l)%Q.
Proof.
  induction 1 as [|x l Hx Hl IH]; simpl; [apply Qle_refl|].
  lra.
Qed.

Lemma level_nonneg (ps : list (string * Q)) (p : string) (w : Q) :
  Forall (fun kv => 0 <= snd kv)%Q ps -> level ps p = Some w -> (0 <= w)%Q.
Proof.
  induction 1 as [|kv ps Hkv Hps IH]; simpl; [discriminate|].
  destruct (String.eqb (fst kv) p); [|exact IH].
  intros Heq. injection Heq as <-. exact Hkv.
Qed.

Lemma violated_weights_nonneg (ps : list (string * Q)) (vs : list string) :
  Forall (fun kv => 0 <= snd kv)%Q ps ->
  Forall (fun x => 0 <= x)%Q (violated_weights ps vs).
Proof.
  intros Hps. induction vs as [|v vs IH]; simpl; [constructor|].
  destruct (level ps v) eqn:Hv; [|exact IH].
  constructor; [|exact IH]. eapply level_nonneg; eassumption.
Qed.

Lemma principles_nonneg :
  Forall (fun kv => 0 <= snd kv)%Q foundational_principles.
Proof. repeat constructor; discriminate. Qed.

Lemma total_weight : (sum (map snd foundational_principles) == 8.95)%Q.
Proof. vm_compute. reflexivity. Qed.

Lemma violated_weights_repeat (n : nat) :
  violated_weights foundational_principles (repeat "nonmaleficence" n)
  = repeat 1.0%Q n.
Proof. induction n as [|n IH]; simpl; [reflexivity|]. rewrite IH. reflexivity. Qed.

Lemma total_repeat_one (n : nat) :
  (total (repeat 1.0 n) == inject_Z (Z.of_nat n))%Q.
Proof.
  induction n as [|n IH]; [reflexivity|].
  simpl repeat. simpl total. rewrite IH, inject_succ.
  assert (E : (1.0 == 1)%Q) by reflexivity. rewrite E. reflexivity.
Qed.

Lemma violated_weights_unknown (vs : list string) :
  Forall (fun p => level foundational_principles p = None) vs ->
  violated_weights foundational_principles vs = [].
Proof.
  induction 1 as [|v vs Hv Hvs IH]; cbn [violated_weights]; [reflexivity|].
  rewrite Hv. exact IH.
Qed.

(** The edges of [evaluate_action].  Without a list the score is 1, and
    names that are no principle do not count; no list gives a score above
    1; a principle named again is counted again, so nine mentions of
    "nonmaleficence" or more give a negative score, outside the range the
    docstring states. *)
Theorem evaluate_action_leaves_its_range_on_repeats
    (n : nat) (unknown violated : list string) :
  Forall (fun p => level foundational_principles p = None) unknown ->
  (evaluate_action None == 1)%Q
  /\ (evaluate_action (Some unknown) == 1)%Q
  /\ (evaluate_action (Some violated) <= 1)%Q
  /\ (evaluate_action (Some (repeat "nonmaleficence" (9 + n))) < 0)%Q.
Proof.
  intros Hunknown.
  split; [reflexivity|]. split; [|split].
  - unfold evaluate_action.
    rewrite (violated_weights_unknown unknown Hunknown).
    vm_compute. reflexivity.
  - unfold evaluate_action. rewrite total_weight, sum_total.
    pose proof (total_nonneg _ (violated_weights_nonneg
                                  foundational_principles violated
                                  principles_nonneg)) as Hge.
    set (v := total (violated_weights foundational_principles violated))
      in *.
    assert (Hlow : (0 <= v / 8.95)%Q).
    { apply Qle_shift_div_l; [reflexivity|]. lra. }
    lra.
  - unfold evaluate_action.
    rewrite total_weight, sum_total, violated_weights_repeat,
      total_repeat_one.
    assert (Hn : (9 <= inject_Z (Z.of_nat (9 + n)))%Q).
    { change 9%Q with (inject_Z 9). rewrite <- Zle_Qle. lia. }
    assert (Hdiv : (1 < inject_Z (Z.of_nat (9 + n)) / 8.95)%Q).
    { apply Qlt_shift_div_l; [reflexivity|]. lra. }
    lra.
Qed.

Lemma evaluate_action_leaves_its_range_on_repeats_witness :
  Forall (fun p => level foundational_principles p = None) ["greed"]
  /\ (evaluate_action (Some ["greed"]) == 1)%Q
  /\ (evaluate_action (Some (repeat "nonmaleficence" 9)) < 0)%Q.
Proof.
  assert (H : Forall (fun p => level foundational_principles p = None)
                     ["greed"]) by (repeat constructor).
  split; [exact H|].
  destruct (evaluate_action_leaves_its_range_on_repeats 0 ["greed"] [] H)
    as (_ & Hu & _ & Hneg).
  split; [exact Hu|exact Hneg].
Defined.

End Ethics.

(** ** The system orchestrator: start-up, bookkeeping and the GitHub client *)

Section SystemBooks.
Import manus_ai_system Reach.

(** Unfold one gated operation of the system at a known gate value. *)
Ltac operate Hauth :=
  unfold invoke, generate_code, analyze_code, ask_question, deploy, failed;
  rewrite Hauth; cbn [negb].

(** Case analysis on the consensus call of an operation. *)
Ltac on_consensus :=
  try match goal with
      | |- context [match ?r with Ok _ => _ | Raise _ => _ end] => destruct r
      end.

Lemma enable_ai_listed (o : ai.MultiAIOrchestrator) (p : ai.AIProvider) :
  map fst (ai.ai_systems o) = Spec.registry -> In p Spec.registry ->
  ai.enable_ai o p
  = (true, {| ai.ai_systems := ai.ai_systems o;
              ai.enabled_systems := {[p]} ∪ ai.enabled_systems o;
              ai.consensus_threshold := ai.consensus_threshold o |}).
Proof.
  intros Hreg Hp. unfold ai.enable_ai, ai.registered.
  rewrite bool_decide_eq_true_2; [reflexivity|].
  rewrite Hreg. apply list_elem_of_In. exact Hp.
Qed.

(** The loop of [initialize] over the enumeration: it leaves the registry
    alone and enables every provider it meets except [MANUS]. *)
Lemma enable_loop (ps : list ai.AIProvider) : forall o,
  map fst (ai.ai_systems o) = Spec.registry ->
  let o' :=
    fold_left
      (fun o provider =>
         if bool_decide (provider <> ai.MANUS)
         then snd (ai.enable_ai o provider) else o)
      ps o in
  ai.ai_systems o' = ai.ai_systems o
  /\ forall q, q ∈ ai.enabled_systems o'
               <-> q ∈ ai.enabled_systems o \/ (In q ps /\ q <> ai.MANUS).
Proof.
  induction ps as [|p ps IH]; intros o Hreg; cbn [fold_left].
  - split; [reflexivity|]. intros q. simpl. tauto.
  - case_bool_decide as Hp.
    + assert (Hin : In p Spec.registry)
        by (destruct p; simpl; tauto).
      rewrite (enable_ai_listed o p Hreg Hin). cbn [snd].
      match goal with
      | |- context [fold_left _ ps ?o1] =>
          destruct (IH o1 Hreg) as [Hsys Hen]
      end.
      split; [exact Hsys|].
      intros q. rewrite Hen. cbn [ai.enabled_systems].
      rewrite elem_of_union, elem_of_singleton. simpl.
      split; [intros [[->|?]|[? ?]]|intros [?|[[<-|?] ?]]]; auto.
    + destruct (IH o Hreg) as [Hsys Hen].
      split; [exact Hsys|].
      intros q. rewrite Hen. simpl.
      split; [intros [?|[? ?]]|intros [?|[[<-|?] ?]]]; auto.
      contradiction.
Qed.

(** The operations of the system never touch its orchestrator. *)
Lemma invoke_keeps_orchestrator (s : ManusAISystem) (c : call) :
  ai_orchestrator (snd (invoke s c)) = ai_orchestrator s.
Proof.
  destruct (is_authenticated s) eqn:Hauth.
  - destruct c; operate Hauth; on_consensus; reflexivity.
  - rewrite (system_gate_closed s c Hauth). reflexivity.
Qed.

(** The orchestrator of a system a client can reach keeps the registry of
    the constructor and enables registered providers only. *)
Lemma reachable_orchestrator (actions : list action) : forall s,
  map fst (ai.ai_systems (ai_orchestrator s)) = Spec.registry ->
  ai.enabled_systems (ai_orchestrator s) ⊆ list_to_set Spec.registry ->
  map fst (ai.ai_systems (ai_orchestrator (run actions s))) = Spec.registry
  /\ ai.enabled_systems (ai_orchestrator (run actions s))
     ⊆ list_to_set Spec.registry.
Proof.
  induction actions as [|a actions IH]; intros s Hreg Hsub; simpl;
    [split; assumption|].
  apply IH; destruct a as [token|c|c|]; cbn [step ai_orchestrator];
    try assumption.
  - unfold initialize. cbn [snd ai_orchestrator].
    match goal with
    | |- context [fold_left ?f ?ps ?o] =>
        destruct (enable_loop ps o Hreg) as [Hsys _]
    end.
    rewrite Hsys. exact Hreg.
  - rewrite invoke_keeps_orchestrator. exact Hreg.
  - rewrite step_ai_systems. exact Hreg.
  - unfold initialize. cbn [snd ai_orchestrator].
    match goal with
    | |- context [fold_left ?f ?ps ?o] =>
        destruct (enable_loop ps o Hreg) as [_ Hen]
    end.
    intros q Hq. apply Hen in Hq. destruct Hq as [Hq|[_ Hq]].
    + apply Hsub, Hq.
    + apply elem_of_list_to_set, list_elem_of_In.
      destruct q; simpl; tauto.
  - rewrite invoke_keeps_orchestrator. exact Hsub.
  - intros q Hq. apply elem_of_list_to_set.
    rewrite <- Hreg, <- (step_ai_systems (ai_orchestrator s) c).
    apply (step_enabled_are_registered (ai_orchestrator s) c); [|exact Hq].
    intros q' Hq'. rewrite Hreg.
    pose proof (Hsub q' Hq') as Hin. apply elem_of_list_to_set in Hin.
    exact Hin.
Qed.

(** [initialize] on a system a client can reach: it returns [True], opens
    the gate, marks the system running, enables all five providers whatever
    was disabled before, logs one initialization and touches no counter.
    The GitHub client ends up authenticated only if it was already or the
    token is not empty. *)
Theorem initialize_enables_every_provider
    (actions : list action) (token : string) :
  let s := run actions __init__ in
  let s' := snd (initialize s token) in
  fst (initialize s token) = true
  /\ is_authenticated s' = true
  /\ is_running s' = true
  /\ ai.enabled_systems (ai_orchestrator s') = list_to_set Spec.registry
  /\ gh.authenticated (github s')
     = gh.authenticated (github s) || negb (String.eqb token "")
  /\ operation_log s'
     = (operation_log s
          ++ [initialization "Manus AI System initialized successfully"])%list
  /\ stats s' = stats s.
Proof.
  cbv zeta.
  destruct (reachable_orchestrator actions __init__) as [Hreg Hsub];
    [reflexivity|intros q Hq; exact Hq|].
  set (s := run actions __init__) in *.
  split; [reflexivity|]. split; [reflexivity|]. split; [reflexivity|].
  split; [|split; [|split; reflexivity]].
  - unfold initialize. cbn [snd ai_orchestrator].
    match goal with
    | |- context [fold_left ?f ?ps ?o] =>
        destruct (enable_loop ps o Hreg) as [_ Hen]
    end.
    apply set_eq. intros q. rewrite Hen. split.
    + intros [Hq|[_ Hq]]; [apply Hsub, Hq|].
      apply elem_of_list_to_set, list_elem_of_In. destruct q; simpl; tauto.
    + intros Hq. right.
      apply elem_of_list_to_set, list_elem_of_In in Hq.
      split; [destruct q; simpl; tauto|].
      intros ->. simpl in Hq. intuition discriminate.
  - unfold initialize. cbn [snd github].
    destruct token; simpl; [rewrite orb_false_r|rewrite orb_true_r];
      reflexivity.
Qed.

End SystemBooks.

Section SystemOperations.
Import manus_ai_system Reach.

(** Unfold one gated operation of the system at a known gate value. *)
Ltac operate Hauth :=
  unfold invoke, generate_code, analyze_code, ask_question, deploy, failed;
  rewrite Hauth; cbn [negb].

(** Case analysis on the consensus call of an operation. *)
Ltac on_consensus :=
  try match goal with
      | |- context [match ?r with Ok _ => _ | Raise _ => _ end] => destruct r
      end.





(** [generate_code] with the gate open and a provider to ask.  It always
    counts a generated file, a commit and a pull request in [stats]; the
    GitHub client gains a branch, a commit and a pull request only when it
    is authenticated itself, and the operation reports the number of the
    pull request then and [None] otherwise. *)
Theorem generate_code_counts_what_github_may_refuse
    (s : ManusAISystem) (feature_name description repository : string) :
  is_authenticated s = true ->
  ai.enabled_integrations (ai_orchestrator s) <> [] ->
  let g := github s in
  let s' := snd (generate_code s feature_name description repository) in
  let made := if gh.authenticated g then 1 else 0 in
  (exists consensus,
      fst (generate_code s feature_name description repository)
      = Success
          (code_generation feature_name repository
             ("feature/" ++ feature_name)
             (if gh.authenticated g
              then Some (Z.of_nat (100 + length (gh.pr_history g)))
              else None)
             consensus))
  /\ length (gh.commit_history (github s'))
     = length (gh.commit_history g) + made
  /\ length (gh.pr_history (github s')) = length (gh.pr_history g) + made
  /\ length (gh.branch_history (github s'))
     = length (gh.branch_history g) + made
  /\ commits_made (stats s') = commits_made (stats s) + 1
  /\ prs_created (stats s') = prs_created (stats s) + 1
  /\ code_files_generated (stats s') = code_files_generated (stats s) + 1.
Proof.
  intros Hauth Hen. cbv zeta.
  destruct (dispatch_returns Spec.generate_code_kind (ai_orchestrator s)
              ("Generate Python code for: " ++ description) Hen)
    as (best & _ & Heq).
  unfold Spec.dispatch in Heq.
  unfold generate_code. rewrite Hauth, Heq. cbn [negb].
  destruct (gh.authenticated (github s)) eqn:Hg.
  - rewrite (create_branch_open (github s) _ _ _ Hg). cbn [snd].
    rewrite commit_open by exact Hg. cbn [snd].
    match goal with
    | |- context [gh.create_pull_request ?g ?r ?t ?d ?b ?tg] =>
        destruct (create_pull_request_open g r t d b tg Hg) as (url & Hpr)
    end.
    rewrite Hpr.
    cbn [fst snd github stats gh.get_pr_number gh.set_prs gh.set_commits
         gh.set_branches gh.commit_history gh.pr_history gh.branch_history].
    rewrite !length_app.
    split; [eexists; reflexivity|]. repeat split.
  - destruct (workflow_methods_closed (github s) Hg)
      as (Hb & Hc & Hp & _ & _).
    rewrite Hb. cbn [snd]. rewrite Hc. cbn [snd]. rewrite Hp.
    cbn [fst snd github stats gh.get_pr_number gh.not_authenticated].
    rewrite !Nat.add_0_r.
    split; [eexists; reflexivity|]. repeat split.
Qed.

Lemma generate_code_counts_what_github_may_refuse_witness :
  let s := run [Initialize ""] __init__ in
  is_authenticated s = true
  /\ ai.enabled_integrations (ai_orchestrator s) <> []
  /\ length (gh.commit_history
               (github (snd (generate_code s "login" "Add login" "repo"))))
     = 0
  /\ commits_made (stats (snd (generate_code s "login" "Add login" "repo")))
     = 1.
Proof.
  cbv zeta.
  assert (Hen : ai.enabled_integrations
                  (ai_orchestrator (run [Initialize ""] __init__)) <> [])
    by (vm_compute; discriminate).
  split; [reflexivity|]. split; [exact Hen|].
  destruct (generate_code_counts_what_github_may_refuse
              (run [Initialize ""] __init__) "login" "Add login" "repo"
              eq_refl Hen) as (_ & Hc & _ & _ & Hs & _).
  split; [exact Hc|exact Hs].
Defined.

(** [deploy] with the gate open always succeeds and counts a deployment,
    and it never changes the GitHub client; the URL it reports is the one
    of the repository when the GitHub client is authenticated and [None]
    when it is not. *)
Theorem deploy_reports_a_url_only_with_github_access
    (s : ManusAISystem) (repository version environment : string) :
  is_authenticated s = true ->
  fst (deploy s repository version environment)
  = Success
      (deployment repository version environment
         (if gh.authenticated (github s)
          then Some ("https://" ++ repository ++ ".helixcollective.ai")
          else None))
  /\ github (snd (deploy s repository version environment)) = github s
  /\ deployments (stats (snd (deploy s repository version environment)))
     = deployments (stats s) + 1.
Proof.
  intros Hauth. unfold deploy. rewrite Hauth. cbn [negb].
  unfold gh.create_release, gh.deploy_to_production.
  destruct (gh.authenticated (github s)) eqn:Hg; cbn [negb snd];
    rewrite Hg; cbn [negb fst snd github stats gh.get_url];
    repeat split.
Qed.

Lemma deploy_reports_a_url_only_with_github_access_witness :
  is_authenticated (run [Initialize ""] __init__) = true
  /\ fst (deploy (run [Initialize ""] __init__) "helix" "1.0" "production")
     = Success (deployment "helix" "1.0" "production" None).
Proof.
  split; [reflexivity|].
  exact (proj1 (deploy_reports_a_url_only_with_github_access
                  (run [Initialize ""] __init__) "helix" "1.0" "production"
                  eq_refl)).
Defined.

(** An operation that finds no provider to ask fails cleanly: it returns
    the text of the exception as an error, adds one entry to [error_log],
    counts one operation and one failure, and leaves everything else of the
    system - operation log, GitHub client, consciousness core, orchestrator
    and flags - as it was. *)
Theorem failed_operation_changes_only_the_error_books
    (s : ManusAISystem) (c : call) :
  is_authenticated s = true ->
  Scenario.consults_providers c = true ->
  ai.enabled_integrations (ai_orchestrator s) = [] ->
  fst (invoke s c)
  = Error match c with
          | GenerateCode _ _ _ => "max() arg is an empty sequence"
          | _ => "division by zero"
          end
  /\ exists entry,
       snd (invoke s c)
       = {| consciousness := consciousness s;
            github := github s;
            ai_orchestrator := ai_orchestrator s;
            is_running := is_running s;
            is_authenticated := is_authenticated s;
            operation_log := operation_log s;
            error_log := (error_log s ++ [entry])%list;
            config := config s;
            stats := count_failed (count_total (stats s)) |}.
Proof.
  intros Hauth Hc Hnone.
  destruct c; try discriminate; operate Hauth.
  - pose proof (dispatch_raises Spec.generate_code_kind (ai_orchestrator s)
                  ("Generate Python code for: " ++ description) Hnone) as Hr.
    unfold Spec.dispatch in Hr. rewrite Hr.
    split; [reflexivity|]. eexists. reflexivity.
  - pose proof (dispatch_raises Spec.analyze_code_kind (ai_orchestrator s)
                  code Hnone) as Hr.
    unfold Spec.dispatch in Hr. rewrite Hr.
    split; [reflexivity|]. eexists. reflexivity.
  - pose proof (dispatch_raises Spec.answer_question_kind (ai_orchestrator s)
                  question Hnone) as Hr.
    unfold Spec.dispatch in Hr. rewrite Hr.
    split; [reflexivity|]. eexists. reflexivity.
Qed.

Lemma failed_operation_changes_only_the_error_books_witness :
  is_authenticated Scenario.no_providers = true
  /\ ai.enabled_integrations (ai_orchestrator Scenario.no_providers) = []
  /\ fst (invoke Scenario.no_providers (AnalyzeCode "pass" "a.py"))
     = Error "division by zero".
Proof.
  assert (Hnone : ai.enabled_integrations
                    (ai_orchestrator Scenario.no_providers) = [])
    by (vm_compute; reflexivity).
  split; [reflexivity|]. split; [exact Hnone|].
  exact (proj1 (failed_operation_changes_only_the_error_books
                  Scenario.no_providers (AnalyzeCode "pass" "a.py")
                  eq_refl eq_refl Hnone)).
Defined.

End SystemOperations.
